(** * Load-prediction service: a shallow embedding of [ml-service]

    The development follows the Python modules that carry the
    algorithmic content of the repository:

    - [app.py]: the serving process (module [App] below): feature
      extraction, the confidence interval, the health, metrics, predict
      and record_actual handlers over the module-level globals;
    - [generate_data.py]: the synthetic workload generator (module
      [GenerateData] below) and its lagged feature columns;
    - [train_model.py]: the preparation of the training matrix (module
      [TrainModel] below).

    Modelling conventions.
    - Python numbers (ints and floats) are exact rationals [Q]; literals
      such as [0.95] or [1.5] are the rationals they denote. Statements
      about sizes and orderings carry over to doubles; exact identities
      need not, and [AppBinary64] repeats the confidence interval on
      binary64 to show where they stop.
    - A naive [datetime] is the number of microseconds since
      0001-01-01T00:00:00; its calendar fields are computed from it the way
      CPython computes them from the proleptic Gregorian ordinal.
    - A raised exception is [Raise msg], [msg] being [str(e)].
    - The module globals are an explicit record threaded through the
      handlers; [try/except] keeps the assignments made before the raise.
    - Request bodies are decoded JSON objects whose fields, when present,
      have the documented type (a field holding JSON null is outside of
      the model for predict; for record_actual null and absent coincide,
      as [dict.get] makes them).
    - Library code (the estimator, the scaler, the ISO-8601 parser, the
      pseudo-random generators) is taken as a parameter. *)

From Stdlib Require Import ZArith QArith Qround Qabs Qminmax Lia Lqa Bool Ascii String.
From Stdlib Require PrimFloat.
From stdpp Require Import base list strings.

Local Open Scope Z_scope.

(** ** Exceptions *)

Inductive result (A : Type) : Type :=
  | Ok (a : A)
  | Raise (msg : string).
Arguments Ok {A} a.
Arguments Raise {A} msg.

(** ** Python and NumPy numerics on exact rationals *)

Module Num.

Definition Qlt_bool (x y : Q) : bool := negb (Qle_bool y x).

(** [max(a, b)]: the first argument wins unless the second is strictly
    greater. *)
Definition py_max (a b : Q) : Q := if Qlt_bool a b then b else a.

(** Rounding to the nearest integer, ties to the even one. *)
Definition round_half_even (x : Q) : Z :=
  let f := Qfloor x in
  match (x - inject_Z f ?= 1 # 2)%Q with
  | Lt => f
  | Gt => f + 1
  | Eq => if Z.even f then f else f + 1
  end.

(** [round(x, ndigits)] for [ndigits >= 0]. *)
Definition py_round (x : Q) (ndigits : Z) : Q :=
  let scale := 10 ^ ndigits in
  Qred (Qmake (round_half_even (x * inject_Z scale)) (Z.to_pos scale)).

Definition Qsum (l : list Q) : Q := fold_right Qplus 0%Q l.

(** [np.mean] of a non-empty sequence. *)
Definition np_mean (l : list Q) : Q :=
  (Qsum l / inject_Z (Z.of_nat (length l)))%Q.

(** [l[-n:]] for [n > 0]. *)
Definition last_n {A} (n : nat) (l : list A) : list A :=
  drop (length l - n) l.

End Num.

(** ** Naive datetimes *)

Module DT.

Definition datetime := Z.

Definition us_per_hour : Z := 3600000000.
Definition us_per_day : Z := 86400000000.

Definition timedelta (days hours : Z) : Z := days * us_per_day + hours * us_per_hour.

(** [timedelta.days]: the normalised day count (floor). *)
Definition td_days (delta : Z) : Z := delta / us_per_day.

Definition toordinal (dt : datetime) : Z := dt / us_per_day + 1.

Definition hour (dt : datetime) : Z := (dt / us_per_hour) mod 24.

Definition weekday (dt : datetime) : Z := (toordinal dt + 6) mod 7.

Definition days_before_month (m : Z) : Z :=
  match m with
  | 1 => 0 | 2 => 31 | 3 => 59 | 4 => 90 | 5 => 120 | 6 => 151
  | 7 => 181 | 8 => 212 | 9 => 243 | 10 => 273 | 11 => 304 | 12 => 334
  | _ => 0
  end.

Definition days_in_month (m : Z) : Z :=
  match m with
  | 2 => 28
  | 4 | 6 | 9 | 11 => 30
  | _ => 31
  end.

(** CPython's [_ord2ymd]: ordinal (0001-01-01 is day 1) to year, month, day. *)
Definition ord2ymd (ord : Z) : Z * Z * Z :=
  let n := ord - 1 in
  let n400 := n / 146097 in
  let n := n mod 146097 in
  let year := n400 * 400 + 1 in
  let n100 := n / 36524 in
  let n := n mod 36524 in
  let n4 := n / 1461 in
  let n := n mod 1461 in
  let n1 := n / 365 in
  let n := n mod 365 in
  let year := year + n100 * 100 + n4 * 4 + n1 in
  if (n1 =? 4) || (n100 =? 4) then (year - 1, 12, 31)
  else
    let leapyear := (n1 =? 3) && (negb (n4 =? 24) || (n100 =? 3)) in
    let month := Z.shiftr (n + 50) 5 in
    let preceding :=
      days_before_month month + (if (2 <? month) && leapyear then 1 else 0) in
    if n <? preceding then
      let month := month - 1 in
      let preceding :=
        preceding
        - (days_in_month month + (if (month =? 2) && leapyear then 1 else 0)) in
      (year, month, n - preceding + 1)
    else (year, month, n - preceding + 1).

Definition month (dt : datetime) : Z :=
  let '(_, m, _) := ord2ymd (toordinal dt) in m.

(** 2024-01-07T14:30:00, the timestamp of the handler's docstring. *)
Definition dt_2024_01_07_14_30 : datetime :=
  (738891 * 24 + 14) * us_per_hour + 30 * 60000000.

End DT.

(** ** The serving process, [app.py] *)

Module App.
Import Num DT.

Local Open Scope string_scope.
Local Open Scope Z_scope.

(** *** Module globals *)

Record metrics_t := { rmse : Q; mae : Q; r2 : Q }.

(** [model_metadata.json] as [train_model.py] writes it; the document
    created when the file is missing has no ['timestamp']. *)
Record metadata := { timestamp : option string; metrics : metrics_t }.

(** The unpickled estimator and scaler: opaque objects with one method,
    which may raise. Arrays are row-major lists. *)
Record regressor := { predict_method : list (list Q) -> result (list Q) }.
Record scaler_t := { transform : list (list Q) -> result (list (list Q)) }.

Record globals := {
  model : option regressor;
  scaler : option scaler_t;
  model_metadata : option metadata;
  prediction_count : Z;
  prediction_errors : list Q
}.

(** State at import time (lines 28-32). *)
Definition initial : globals :=
  {| model := None; scaler := None; model_metadata := None;
     prediction_count := 0; prediction_errors := [] |}.

(** *** Handlers: global state plus exceptions *)

Definition M (A : Type) : Type := globals -> result A * globals.

Definition ret {A} (a : A) : M A := fun g => (Ok a, g).
Definition raise {A} (msg : string) : M A := fun g => (Raise msg, g).
Definition bind {A B} (c : M A) (k : A -> M B) : M B :=
  fun g => match c g with
           | (Ok a, g') => k a g'
           | (Raise msg, g') => (Raise msg, g')
           end.
Definition get : M globals := fun g => (Ok g, g).
Definition put (g' : globals) : M unit := fun _ => (Ok tt, g').
Definition lift {A} (r : result A) : M A := fun g => (r, g).

(** [try: body except Exception as e: handler(str(e))]; what [body]
    assigned before raising stays assigned. *)
Definition try_except {A} (body : M A) (handler : string -> M A) : M A :=
  fun g => match body g with
           | (Ok a, g') => (Ok a, g')
           | (Raise msg, g') => handler msg g'
           end.

Notation "x <- c ;; k" := (bind c (fun x => k))
  (at level 100, c at next level, right associativity).
Notation "c ;;; k" := (bind c (fun _ => k))
  (at level 100, right associativity).

(** *** JSON responses *)

Inductive jval :=
  | JStr (s : string)
  | JNum (q : Q)
  | JBool (b : bool)
  | JIso (dt : datetime).  (* [dt.isoformat()] *)

(** [jsonify(body), status]; the status is 200 when the handler gives
    none. *)
Definition response : Type := list (string * jval) * Z.

Definition jsonify (body : list (string * jval)) : response := (body, 200).

(** *** Request bodies *)

Record predict_request := {
  current_time : option string;
  current_load : option Q;
  historical_loads : option (list Q)
}.

Record record_request := {
  predicted_load : option Q;
  actual_load : option Q
}.

(** [field in data] *)
Definition has_field (data : predict_request) (field : string) : bool :=
  if String.eqb field "current_time" then bool_decide (is_Some (current_time data))
  else if String.eqb field "current_load" then bool_decide (is_Some (current_load data))
  else if String.eqb field "historical_loads" then bool_decide (is_Some (historical_loads data))
  else false.

(** [data[key]] *)
Definition getitem {A} (field : option A) (key : string) : M A :=
  match field with
  | Some v => ret v
  | None => raise ("'" +:+ key +:+ "'")
  end.

(** [s.replace('Z', '+00:00')] *)
Fixpoint replace_Z (s : string) : string :=
  match s with
  | EmptyString => EmptyString
  | String c rest =>
      if Ascii.eqb c "Z"%char then "+00:00" +:+ replace_Z rest
      else String c (replace_Z rest)
  end.

(** The files [load_model] looks for: [None] when the path does not
    exist, otherwise what loading it gives. For model_metadata.json,
    [Some (Raise e)] is a file that [json.load] cannot read and
    [Some (Ok md)] one that holds a document with the metrics
    [train_model.py] writes. A file that parses to anything else, which
    line 62 would assign before line 63 fails on it, has no counterpart
    here: the metadata of this model is always a well-formed document. *)
Record artifacts := {
  model_pkl : option (result regressor);
  scaler_pkl : option (result scaler_t);
  model_metadata_json : option (result metadata)
}.

Definition set_model (m : regressor) : M unit :=
  fun g => (Ok tt, {| model := Some m; scaler := scaler g;
                      model_metadata := model_metadata g;
                      prediction_count := prediction_count g;
                      prediction_errors := prediction_errors g |}).

Definition set_scaler (s : scaler_t) : M unit :=
  fun g => (Ok tt, {| model := model g; scaler := Some s;
                      model_metadata := model_metadata g;
                      prediction_count := prediction_count g;
                      prediction_errors := prediction_errors g |}).

Definition set_model_metadata (md : metadata) : M unit :=
  fun g => (Ok tt, {| model := model g; scaler := scaler g;
                      model_metadata := Some md;
                      prediction_count := prediction_count g;
                      prediction_errors := prediction_errors g |}).

Definition set_prediction_count (n : Z) : M unit :=
  fun g => (Ok tt, {| model := model g; scaler := scaler g;
                      model_metadata := model_metadata g;
                      prediction_count := n;
                      prediction_errors := prediction_errors g |}).

Definition set_prediction_errors (l : list Q) : M unit :=
  fun g => (Ok tt, {| model := model g; scaler := scaler g;
                      model_metadata := model_metadata g;
                      prediction_count := prediction_count g;
                      prediction_errors := l |}).

(** [load_model()], lines 34-72. *)
Definition load_model (files : artifacts) : M bool :=
  try_except
    (m <- match model_pkl files with
          | None => raise "Model not found. Please run 'python train_model.py' first."
          | Some loaded => lift loaded
          end ;;
     set_model m ;;;
     s <- match scaler_pkl files with
          | None => raise "Scaler not found. Please run 'python train_model.py' first."
          | Some loaded => lift loaded
          end ;;
     set_scaler s ;;;
     match model_metadata_json files with
     | Some loaded => md <- lift loaded ;; set_model_metadata md
     | None =>
         set_model_metadata
           {| timestamp := None; metrics := {| rmse := 0; mae := 0; r2 := 0 |} |}
     end ;;;
     ret true)
    (fun _ => ret false).

(** [calculate_confidence_interval(prediction, confidence)], lines 115-137. *)
Definition interval_rmse (g : globals) : Q :=
  match model_metadata g with
  | Some md => rmse (metrics md)
  | None => 50
  end.

Definition interval_margin (g : globals) (confidence : Q) : Q :=
  let rmse := interval_rmse g in
  if Qle_bool (95 # 100) confidence then (2 * rmse)%Q else ((3 # 2) * rmse)%Q.

Definition calculate_confidence_interval
    (g : globals) (prediction confidence : Q) : Q * Q :=
  let margin := interval_margin g confidence in
  let lower := py_max 0 (prediction - margin) in
  let upper := (prediction + margin)%Q in
  (lower, upper).

(** [health_check()], lines 139-152. *)
Definition health_check (now : datetime) : M response :=
  g <- get ;;
  ret (jsonify
    [ ("status", JStr (if bool_decide (is_Some (model g)) then "healthy" else "unhealthy"));
      ("model_loaded", JBool (bool_decide (is_Some (model g))));
      ("scaler_loaded", JBool (bool_decide (is_Some (scaler g))));
      ("timestamp", JIso now) ]).

(** [get_metrics()], lines 154-174. *)
Definition avg_error_of (errors : list Q) : Q :=
  match errors with
  | [] => 0
  | _ => np_mean errors
  end.

Definition get_metrics (now : datetime) : M response :=
  g <- get ;;
  let avg_error := avg_error_of (prediction_errors g) in
  ret (jsonify
    [ ("predictions_served", JNum (inject_Z (prediction_count g)));
      ("avg_error", JNum (py_round avg_error 2));
      ("model_version",
        JStr match model_metadata g with
             | Some md => default "v1.0" (timestamp md)
             | None => "v1.0"
             end);
      ("model_rmse", JNum match model_metadata g with
                          | Some md => rmse (metrics md) | None => 0 end);
      ("model_r2", JNum match model_metadata g with
                        | Some md => r2 (metrics md) | None => 0 end);
      ("timestamp", JIso now) ]).

(** [record_actual()], lines 260-298. *)
Definition record_actual (data : record_request) : M response :=
  try_except
    (let predicted := predicted_load data in
     let actual := actual_load data in
     match predicted, actual with
     | Some predicted, Some actual =>
         let error := Qabs (predicted - actual) in
         g <- get ;;
         set_prediction_errors (prediction_errors g ++ [error]) ;;;
         g <- get ;;
         (if bool_decide (1000 < length (prediction_errors g))%nat
          then set_prediction_errors (last_n 1000 (prediction_errors g))
          else ret tt) ;;;
         ret (jsonify [ ("status", JStr "recorded");
                        ("error", JNum (py_round error 2)) ])
     | _, _ =>
         ret ([ ("error", JStr "Missing predicted_load or actual_load") ], 400)
     end)
    (fun e => ret ([ ("error", JStr e) ], 500)).

Section WithParser.

(** [datetime.fromisoformat]: the parsed timestamp (its wall-clock fields,
    whatever the offset), or the [ValueError] it raises. *)
Variable fromisoformat : string -> result datetime.

(** [extract_features(current_time, current_load, historical_loads)],
    lines 74-113. The result is the 1 x 8 array
    [np.array(features).reshape(1, -1)]. *)
Definition extract_features
    (current_time : string) (current_load : Q) (historical_loads : list Q)
    : result (list (list Q)) :=
  match fromisoformat (replace_Z current_time) with
  | Raise msg => Raise msg
  | Ok dt =>
      let hour_of_day := hour dt in
      let day_of_week := weekday dt in
      let month := month dt in
      let is_weekend := if 5 <=? day_of_week then 1 else 0 in
      let is_business_hours :=
        if (9 <=? hour_of_day) && (hour_of_day <? 17) then 1 else 0 in
      let load_1h_ago :=
        if bool_decide (1 <= length historical_loads)%nat
        then default current_load (last historical_loads)
        else current_load in
      let load_24h_ago := current_load in
      let avg_load_last_7d :=
        match historical_loads with
        | [] => current_load
        | _ => np_mean historical_loads
        end in
      let features :=
        [ inject_Z hour_of_day; inject_Z day_of_week; inject_Z month;
          inject_Z is_weekend; inject_Z is_business_hours;
          load_1h_ago; load_24h_ago; avg_load_last_7d ] in
      Ok [features]
  end.

Definition required_fields : list string :=
  [ "current_time"; "current_load"; "historical_loads" ].

(** [predict()], lines 176-258. *)
Definition predict (data : predict_request) (now : datetime) : M response :=
  try_except
    (g <- get ;;
     match model g, scaler g with
     | Some the_model, Some the_scaler =>
         match List.find (fun field => negb (has_field data field)) required_fields with
         | Some field =>
             ret ([ ("error", JStr ("Missing required field: " +:+ field)) ], 400)
         | None =>
             time <- getitem (current_time data) "current_time" ;;
             load <- getitem (current_load data) "current_load" ;;
             history <- getitem (historical_loads data) "historical_loads" ;;
             features <- lift (extract_features time load history) ;;
             features_scaled <- lift (transform the_scaler features) ;;
             predictions <- lift (predict_method the_model features_scaled) ;;
             predicted_load <- match predictions with
                               | p :: _ => ret p
                               | [] => raise "index 0 is out of bounds"
                               end ;;
             g <- get ;;
             let '(confidence_lower, confidence_upper) :=
               calculate_confidence_interval g predicted_load (95 # 100) in
             set_prediction_count (prediction_count g + 1) ;;;
             g <- get ;;
             ret (jsonify
               [ ("predicted_load", JNum (py_round predicted_load 2));
                 ("confidence_lower", JNum (py_round confidence_lower 2));
                 ("confidence_upper", JNum (py_round confidence_upper 2));
                 ("prediction_horizon", JStr "30_minutes");
                 ("model_accuracy",
                   JNum match model_metadata g with
                        | Some md => py_round (r2 (metrics md)) 4
                        | None => 89 # 100
                        end);
                 ("timestamp", JIso now) ])
         end
     | _, _ =>
         ret ([ ("error", JStr "Model not loaded");
                ("message", JStr "Please run train_model.py first") ], 500)
     end)
    (fun e =>
       ret ([ ("error", JStr "Prediction failed"); ("message", JStr e) ], 500)).

(** The service as a transition system: one request, one response. *)
Inductive request :=
  | Health (now : datetime)
  | Metrics (now : datetime)
  | Predict (data : predict_request) (now : datetime)
  | RecordActual (data : record_request).

Definition handle (req : request) : M response :=
  match req with
  | Health now => health_check now
  | Metrics now => get_metrics now
  | Predict data now => predict data now
  | RecordActual data => record_actual data
  end.

(** The globals after serving the requests in order. *)
Fixpoint serve (reqs : list request) (g : globals) : globals :=
  match reqs with
  | [] => g
  | req :: rest => serve rest (snd (handle req g))
  end.

End WithParser.

(** A parser instance for the examples: it knows the timestamp of the
    handler's docstring and rejects every other string. *)
Definition fromisoformat_docstring (s : string) : result datetime :=
  if String.eqb s "2024-01-07T14:30:00" then Ok dt_2024_01_07_14_30
  else Raise ("Invalid isoformat string: '" +:+ s +:+ "'").

Definition stub_regressor (y : Q) : regressor :=
  {| predict_method := fun rows => Ok (map (fun _ => y) rows) |}.

Definition identity_scaler : scaler_t := {| transform := fun rows => Ok rows |}.

(** *** Vocabulary of the properties *)

(** A field of a response body. *)
Definition body_field (key : string) (r : result response) : option jval :=
  match r with
  | Ok (body, _) =>
      snd <$> List.find (fun kv => String.eqb (fst kv) key) body
  | Raise _ => None
  end.

Definition status_code (r : result response) : option Z :=
  match r with
  | Ok (_, code) => Some code
  | Raise _ => None
  end.

(** The absolute errors a request sequence submits with both loads
    given, oldest first. *)
Definition observed_error (req : request) : option Q :=
  match req with
  | RecordActual {| predicted_load := Some predicted; actual_load := Some actual |} =>
      Some (Qabs (predicted - actual))
  | _ => None
  end.

Definition observed_errors (reqs : list request) : list Q :=
  omap observed_error reqs.

(** The answer of predict's exception handler, and the globals after one
    more prediction was counted. *)
Definition failed (e : string) : result response :=
  Ok ([ ("error", JStr "Prediction failed"); ("message", JStr e) ], 500).

Definition counted (g : globals) : globals :=
  {| model := model g; scaler := scaler g; model_metadata := model_metadata g;
     prediction_count := prediction_count g + 1;
     prediction_errors := prediction_errors g |}.

(** How many of the requests are predict requests. *)
Definition is_predict (req : request) : bool :=
  match req with
  | Predict _ _ => true
  | _ => false
  end.

Definition predict_requests (reqs : list request) : Z :=
  Z.of_nat (length (List.filter is_predict reqs)).

(** Globals of a process whose artifacts loaded, with RMSE 20, as in the
    worked example of the interface. *)
Definition ready_example : globals :=
  {| model := Some (stub_regressor 820);
     scaler := Some identity_scaler;
     model_metadata :=
       Some {| timestamp := Some "20240107_143000";
               metrics := {| rmse := 20; mae := 15; r2 := 89 # 100 |} |};
     prediction_count := 0;
     prediction_errors := [] |}.

Definition docstring_request : predict_request :=
  {| current_time := Some "2024-01-07T14:30:00";
     current_load := Some 750%Q;
     historical_loads := Some [650; 700; 720; 745]%Q |}.

End App.

(** ** The confidence interval on IEEE binary64

    The serving process computes on doubles. This is
    [calculate_confidence_interval] (lines 115-137) once more, on Rocq's
    primitive binary64 floats, to tell which facts about the interval
    survive rounding; [metadata_rmse] is what
    [model_metadata['metrics']['rmse']] holds, if the metadata is there. *)

Module AppBinary64.
Import PrimFloat.

Local Open Scope float_scope.

(** [max(0, x)] *)
Definition py_max_0 (x : float) : float := if ltb 0 x then x else 0.

Definition calculate_confidence_interval
    (metadata_rmse : option float) (prediction confidence : float)
    : float * float :=
  let rmse := match metadata_rmse with Some r => r | None => 50 end in
  let margin :=
    if leb 0x1.e666666666666p-1 confidence   (* 0.95 *)
    then 2 * rmse else 0x1.8p+0 * rmse in
  let lower := py_max_0 (prediction - margin) in
  let upper := prediction + margin in
  (lower, upper).

(** The doubles nearest to 0.05, 0.3, 0.95 and 39.99999999999999. *)
Definition d_0_05 : float := 0x1.999999999999ap-5.
Definition d_0_3 : float := 0x1.3333333333333p-2.
Definition d_0_95 : float := 0x1.e666666666666p-1.
Definition d_39_99999999999999 : float := 0x1.3ffffffffffffp+5.

End AppBinary64.

(** ** The workload generator, [generate_data.py] *)

Module GenerateData.
Import Num.

Local Open Scope string_scope.
Local Open Scope Z_scope.

(** *** The two global generators

    A seeded generator is the sequence of unit-interval draws it has yet
    to produce; drawing takes the first and leaves the rest. *)

Definition stream : Type := nat -> Q.

Record rngs := { np_random : stream; py_random : stream }.

(** [np.random.uniform(low, high)] *)
Definition np_uniform (low high : Q) (r : rngs) : Q * rngs :=
  ((low + (high - low) * np_random r 0%nat)%Q,
   {| np_random := fun n => np_random r (S n); py_random := py_random r |}).

(** [random.random()] *)
Definition py_unit (r : rngs) : Q * rngs :=
  (py_random r 0%nat,
   {| np_random := np_random r; py_random := fun n => py_random r (S n) |}).

(** [random.uniform(a, b)] *)
Definition py_uniform (a b : Q) (r : rngs) : Q * rngs :=
  let '(u, r) := py_unit r in ((a + (b - a) * u)%Q, r).

(** [generate_base_load], lines 26-63. *)
Definition generate_base_load
    (hour day_of_week : Z) (is_weekend is_business_hours : bool) (r : rngs)
    : Q * rngs :=
  let '(base, r) :=
    if (hour <? 6) || (22 <=? hour) then np_uniform 50 100 r
    else if hour <? 9 then np_uniform 200 400 r
    else if is_business_hours then
      if hour =? 12 then np_uniform 1100 1300 r else np_uniform 500 1000 r
    else np_uniform 150 350 r in
  let base := if is_weekend then (base * (3 # 10))%Q else base in
  (base, r).

(** [add_noise], lines 65-68. *)
Definition add_noise (value noise_percent : Q) (r : rngs) : Q * rngs :=
  let '(u, r) := np_uniform (- noise_percent) noise_percent r in
  let noise := (u / 100)%Q in
  ((value * (1 + noise))%Q, r).

(** [should_spike], lines 70-72. *)
Definition should_spike (probability : Q) (r : rngs) : bool * rngs :=
  let '(u, r) := py_unit r in (Qlt_bool u probability, r).

(** *** The hourly loop, lines 97-138 *)

Record sample := {
  timestamp : DT.datetime;
  hour_of_day : Z;
  day_of_week : Z;
  month : Z;
  is_weekend : Z;
  is_business_hours : Z;
  current_load : Q
}.

(** One iteration of the loop body, up to [data.append]. *)
Definition hourly_sample (start_date current_date : DT.datetime) (r : rngs)
    : sample * rngs :=
  let hour := DT.hour current_date in
  let day_of_week := DT.weekday current_date in
  let month := DT.month current_date in
  let is_weekend := 5 <=? day_of_week in
  let is_business_hours := (9 <=? hour) && (hour <? 17) in
  let months_elapsed :=
    (inject_Z (DT.td_days (current_date - start_date)) / 30)%Q in
  let growth_factor := (1 + (5 # 100) * months_elapsed)%Q in
  let '(base_load, r) :=
    generate_base_load hour day_of_week is_weekend is_business_hours r in
  let load := (base_load * growth_factor)%Q in
  let '(load, r) := add_noise load 20 r in
  let '(spike, r) := should_spike (2 # 100) r in
  let '(load, r) :=
    if spike then let '(factor, r) := py_uniform 3 5 r in ((load * factor)%Q, r)
    else (load, r) in
  let load := py_max 0 load in
  ({| timestamp := current_date;
      hour_of_day := hour;
      day_of_week := day_of_week;
      month := month;
      is_weekend := if is_weekend then 1 else 0;
      is_business_hours := if is_business_hours then 1 else 0;
      current_load := py_round load 2 |}, r).

(** [for i in range(total_hours)]: the samples in the order appended. *)
Fixpoint hourly_loop (total_hours : nat) (start_date current_date : DT.datetime)
    (r : rngs) : list sample * rngs :=
  match total_hours with
  | O => ([], r)
  | S remaining =>
      let '(s, r) := hourly_sample start_date current_date r in
      let '(rest, r) :=
        hourly_loop remaining start_date (current_date + DT.timedelta 0 1) r in
      (s :: rest, r)
  end.

(** *** The pandas operations used, on columns with NaN as [None] *)

Abbreviation series := (list (option Q)).

(** [s.shift(periods)] for [periods >= 0] *)
Definition shift (periods : nat) (s : series) : series :=
  take (length s) (replicate periods None ++ s).

(** [s.rolling(window=window, min_periods=min_periods).mean()]: at each
    index the mean of the non-NaN values among the last [window] entries up
    to and including that index, NaN when fewer than [min_periods] exist. *)
Definition rolling_mean (window min_periods : nat) (s : series) : series :=
  map (fun i =>
         let valid := omap id (drop (S i - window) (take (S i) s)) in
         if bool_decide (min_periods <= length valid)%nat
         then Some (np_mean valid) else None)
      (seq 0 (length s)).

Record row := {
  base : sample;
  load_1h_ago : option Q;
  load_24h_ago : option Q;
  avg_load_last_7d : option Q
}.

(** Lines 145-149: the three lagged columns joined to the frame. *)
Definition add_lagged (data : list sample) : list row :=
  let loads : series := map (fun s => Some (current_load s)) data in
  let c1 := shift 1 loads in
  let c24 := shift 24 loads in
  let c7d := rolling_mean (24 * 7) 1 (shift 1 loads) in
  zip_with (fun '(s, l1) '(l24, a7) =>
              {| base := s; load_1h_ago := l1;
                 load_24h_ago := l24; avg_load_last_7d := a7 |})
           (zip data c1) (zip c24 c7d).

Definition has_nan (x : row) : bool :=
  negb (bool_decide (is_Some (load_1h_ago x))
        && bool_decide (is_Some (load_24h_ago x))
        && bool_decide (is_Some (avg_load_last_7d x))).

(** [df.dropna()] *)
Definition dropna (df : list row) : list row :=
  List.filter (fun x => negb (has_nan x)) df.

(** [generate_training_data(months)], lines 74-180, [now] being what
    [datetime.now()] returns. The frame built from an empty list has no
    column to shift. *)
Definition start_date (months : Z) (now : DT.datetime) : DT.datetime :=
  now - DT.timedelta (30 * months) 0.

Definition generate_training_data (months : Z) (now : DT.datetime) (r : rngs)
    : result (list row) * rngs :=
  let start_date := start_date months now in
  let total_hours := 24 * 30 * months in
  let '(data, r) := hourly_loop (Z.to_nat total_hours) start_date start_date r in
  match data with
  | [] => (Raise "'current_load'", r)
  | _ => (Ok (dropna (add_lagged data)), r)
  end.

Section Seeded.

(** What [np.random.seed(s)] and [random.seed(s)] leave in the two
    generators. *)
Variables np_seed py_seed : Z -> stream.

Definition seeded (s : Z) : rngs :=
  {| np_random := np_seed s; py_random := py_seed s |}.

(** One run of the simulator: seed both generators, generate. The script
    seeds with 42 at import and generates 6 months. *)
Definition simulator (seed months : Z) (now : DT.datetime) : result (list row) :=
  fst (generate_training_data months now (seeded seed)).

Definition script (now : DT.datetime) : result (list row) := simulator 42 6 now.

End Seeded.

(** Stand-in generators for the examples: every draw is 1/2, whatever
    the seed. *)
Definition half_stream (seed : Z) : stream := fun _ => 1 # 2.

(** *** Vocabulary of the properties *)

(** The samples of one call, before the lagged columns are added. *)
Definition hourly_samples (months : Z) (now : DT.datetime) (r : rngs) : list sample :=
  fst (hourly_loop (Z.to_nat (24 * 30 * months))
         (start_date months now) (start_date months now) r).

(** The lagged columns as the design describes them, from the loads that
    precede a sample (oldest first): the previous load, the load 24 steps
    back, the mean of the last 168 loads or of as many as there are. *)
Definition lagged_from_past (s : sample) (past : list Q) : row :=
  {| base := s;
     load_1h_ago := last past;
     load_24h_ago :=
       if decide (24 <= length past)%nat then past !! (length past - 24)%nat
       else None;
     avg_load_last_7d :=
       match past with
       | [] => None
       | _ => Some (np_mean (last_n 168 past))
       end |}.

(** The spikes of the next [hours] hours, read off the stream of the
    random module as the loop consumes it: an hour takes one draw for
    [should_spike], spikes when that draw is below 0.02, and then takes a
    second draw for the factor. *)
Fixpoint spike_count (py : stream) (hours : nat) : nat :=
  match hours with
  | O => O
  | S remaining =>
      if Qlt_bool (py 0%nat) (2 # 100)
      then S (spike_count (fun k => py (2 + k)%nat) remaining)
      else spike_count (fun k => py (1 + k)%nat) remaining
  end.

(** The frame in which every sample carries the lags of its own past. *)
Definition lagged_frame (data : list sample) : list row :=
  imap (fun i s => lagged_from_past s (map current_load (take i data))) data.

End GenerateData.

(** ** Preparing the training matrix, [train_model.py] *)

Module TrainModel.
Import GenerateData.

Local Open Scope string_scope.
Local Open Scope Z_scope.

(** Lines 60-69: the feature columns, in training order. *)
Definition feature_cols : list string :=
  [ "hour_of_day"; "day_of_week"; "month"; "is_weekend"; "is_business_hours";
    "load_1h_ago"; "load_24h_ago"; "avg_load_last_7d" ].

(** The numeric cell of a row under a column name; [None] when the frame
    read back from the CSV has no such numeric column. *)
Definition cell (name : string) (x : row) : option (option Q) :=
  if String.eqb name "hour_of_day" then Some (Some (inject_Z (hour_of_day (base x))))
  else if String.eqb name "day_of_week" then Some (Some (inject_Z (day_of_week (base x))))
  else if String.eqb name "month" then Some (Some (inject_Z (month (base x))))
  else if String.eqb name "is_weekend" then Some (Some (inject_Z (is_weekend (base x))))
  else if String.eqb name "is_business_hours"
       then Some (Some (inject_Z (is_business_hours (base x))))
  else if String.eqb name "current_load" then Some (Some (current_load (base x)))
  else if String.eqb name "load_1h_ago" then Some (load_1h_ago x)
  else if String.eqb name "load_24h_ago" then Some (load_24h_ago x)
  else if String.eqb name "avg_load_last_7d" then Some (avg_load_last_7d x)
  else None.

(** [df[cols]] for one row: a missing column is a [KeyError]. *)
Fixpoint select (cols : list string) (x : row) : result (list (option Q)) :=
  match cols with
  | [] => Ok []
  | name :: rest =>
      match cell name x with
      | None => Raise ("'" +:+ name +:+ "'")
      | Some v =>
          match select rest x with
          | Ok vs => Ok (v :: vs)
          | Raise e => Raise e
          end
      end
  end.

Fixpoint select_rows (cols : list string) (df : list row)
    : result (list (list (option Q))) :=
  match df with
  | [] => Ok []
  | x :: rest =>
      match select cols x with
      | Raise e => Raise e
      | Ok v =>
          match select_rows cols rest with
          | Ok vs => Ok (v :: vs)
          | Raise e => Raise e
          end
      end
  end.

(** [s.shift(-periods)] for [periods >= 0] *)
Definition shift_back (periods : nat) (s : series) : series :=
  drop periods s ++ replicate (periods `min` length s) None.

(** [prepare_features(df)], lines 40-84: the feature matrix, the target
    column and the column names. *)
Definition prepare_features (df : list row)
    : result (list (list (option Q)) * list (option Q) * list string) :=
  let target_load := shift_back 1 (map (fun x => Some (current_load (base x))) df) in
  let df := List.filter (fun xt => bool_decide (is_Some (snd xt))) (zip df target_load) in
  match select_rows feature_cols (map fst df) with
  | Raise e => Raise e
  | Ok X => Ok (X, map snd df, feature_cols)
  end.

(** The eight feature cells of a row, in training order. *)
Definition feature_row (x : row) : list (option Q) :=
  [ Some (inject_Z (hour_of_day (base x))); Some (inject_Z (day_of_week (base x)));
    Some (inject_Z (month (base x))); Some (inject_Z (is_weekend (base x)));
    Some (inject_Z (is_business_hours (base x)));
    load_1h_ago x; load_24h_ago x; avg_load_last_7d x ].

End TrainModel.

(** * Facts about the numeric helpers *)

Module NumFacts.
Import Num.

Lemma Qlt_bool_iff x y : Qlt_bool x y = true <-> (x < y)%Q.
Proof.
  unfold Qlt_bool. rewrite negb_true_iff. split.
  - intros H. apply Qnot_le_lt. intros Hle. apply Qle_bool_iff in Hle. congruence.
  - intros H. destruct (Qle_bool y x) eqn:E; [|reflexivity].
    apply Qle_bool_iff in E. exfalso. exact (Qlt_not_le _ _ H E).
Qed.

Lemma Qlt_bool_false x y : Qlt_bool x y = false <-> (y <= x)%Q.
Proof.
  unfold Qlt_bool. rewrite negb_false_iff. apply Qle_bool_iff.
Qed.

Lemma py_max_cases a b :
  ((a < b)%Q /\ py_max a b = b) \/ ((b <= a)%Q /\ py_max a b = a).
Proof.
  unfold py_max. destruct (Qlt_bool a b) eqn:E.
  - left. split; [now apply Qlt_bool_iff | reflexivity].
  - right. split; [now apply Qlt_bool_false | reflexivity].
Qed.

Lemma py_max_Qmax a b : (py_max a b == Qmax a b)%Q.
Proof.
  destruct (py_max_cases a b) as [[Hlt ->] | [Hle ->]].
  - symmetry. apply Q.max_r. now apply Qlt_le_weak.
  - symmetry. now apply Q.max_l.
Qed.

Lemma py_max_lower_bound a b : (a <= py_max a b)%Q.
Proof.
  destruct (py_max_cases a b) as [[Hlt ->] | [Hle ->]].
  - now apply Qlt_le_weak.
  - apply Qle_refl.
Qed.

Lemma round_half_even_nonneg x : (0 <= x)%Q -> 0 <= round_half_even x.
Proof.
  intros Hx. unfold round_half_even.
  assert (Hf : 0 <= Qfloor x).
  { change 0 with (Qfloor 0). now apply Qfloor_resp_le. }
  destruct (x - inject_Z (Qfloor x) ?= 1 # 2)%Q; [destruct (Z.even _)| |]; lia.
Qed.

Lemma py_round_nonneg x n : (0 <= x)%Q -> (0 <= py_round x n)%Q.
Proof.
  intros Hx. unfold py_round. rewrite Qred_correct.
  assert (Hs : 0 <= 10 ^ n) by (apply Z.pow_nonneg; lia).
  unfold Qle. cbn. rewrite Z.mul_1_r.
  apply round_half_even_nonneg.
  apply Qmult_le_0_compat; [exact Hx|].
  change 0%Q with (inject_Z 0). now rewrite <- Zle_Qle.
Qed.

Lemma length_last_n {A} n (l : list A) : (length (last_n n l) <= n)%nat.
Proof. unfold last_n. rewrite length_drop. lia. Qed.

Lemma last_n_short {A} n (l : list A) : (length l <= n)%nat -> last_n n l = l.
Proof.
  intros H. unfold last_n. replace (length l - n)%nat with 0%nat by lia.
  apply drop_0.
Qed.

Lemma last_n_last_n_app {A} n (l k : list A) :
  last_n n (last_n n l ++ k) = last_n n (l ++ k).
Proof.
  destruct (decide (length l <= n)%nat) as [Hle | Hgt].
  - now rewrite (last_n_short n l).
  - unfold last_n. rewrite !length_app, length_drop.
    destruct (decide (length k <= n)%nat) as [Hk | Hk].
    + rewrite !drop_app_le by (rewrite ?length_drop; lia).
      rewrite drop_drop. f_equal. f_equal. lia.
    + rewrite !drop_app_ge by (rewrite ?length_drop; lia).
      rewrite length_drop. f_equal. lia.
Qed.

Lemma last_n_cons_full {A} n (x : A) (l : list A) :
  length l = n -> last_n n (x :: l) = l.
Proof.
  intros H. unfold last_n. cbn [length].
  replace (S (length l) - n)%nat with 1%nat by lia. reflexivity.
Qed.

Lemma last_last_n_snoc {A} n (l : list A) x :
  (0 < n)%nat -> last (last_n n (l ++ [x])) = Some x.
Proof.
  intros Hn. unfold last_n. rewrite length_app. cbn [length].
  rewrite drop_app_le by lia. apply last_snoc.
Qed.

End NumFacts.

(** * Properties of the serving process *)

Module AppProps.
Import Num DT App NumFacts.

Local Open Scope string_scope.
Local Open Scope Z_scope.

(** ** The confidence interval *)

(** C3. With the metadata loaded, the margin is twice the recorded RMSE
    at confidence 0.95 and above and one and a half times it below; the
    interval is [max(0, prediction - margin), prediction + margin], so its
    lower end is never negative, also after the rounding of the response. *)
Theorem confidence_interval_margin_and_bounds
    (g : globals) (md : metadata) (prediction confidence : Q) :
  model_metadata g = Some md ->
  let margin := interval_margin g confidence in
  let '(lower, upper) := calculate_confidence_interval g prediction confidence in
  ((95 # 100 <= confidence)%Q -> margin = (2 * rmse (metrics md))%Q) /\
  ((confidence < 95 # 100)%Q -> margin = ((3 # 2) * rmse (metrics md))%Q) /\
  (lower == Qmax 0 (prediction - margin))%Q /\
  upper = (prediction + margin)%Q /\
  (0 <= lower)%Q /\
  (0 <= py_round lower 2)%Q.
Proof.
  intros Hmd. cbv zeta. unfold calculate_confidence_interval.
  unfold interval_margin, interval_rmse. rewrite Hmd.
  repeat split.
  - intros Hc. apply Qle_bool_iff in Hc. now rewrite Hc.
  - intros Hc. destruct (Qle_bool (95 # 100) confidence) eqn:E; [|reflexivity].
    apply Qle_bool_iff in E. exfalso. exact (Qlt_not_le _ _ Hc E).
  - apply py_max_Qmax.
  - apply py_max_lower_bound.
  - apply py_round_nonneg, py_max_lower_bound.
Qed.

Lemma confidence_interval_margin_and_bounds_witness :
  model_metadata ready_example
  = Some {| timestamp := Some "20240107_143000";
            metrics := {| rmse := 20; mae := 15; r2 := 89 # 100 |} |} /\
  calculate_confidence_interval ready_example 820 (95 # 100) = (780%Q, 860%Q) /\
  (0 <= fst (calculate_confidence_interval ready_example 820 (95 # 100)))%Q.
Proof.
  split; [reflexivity|]. split; [reflexivity|].
  pose proof (confidence_interval_margin_and_bounds ready_example _ 820 (95 # 100)
                eq_refl) as H.
  cbv zeta in H.
  destruct (calculate_confidence_interval ready_example 820 (95 # 100)) as [lo up].
  exact (proj1 (proj2 (proj2 (proj2 (proj2 H))))).
Defined.

(** C4, as stated: the width is twice the margin for every prediction.
    It fails when the lower end is clamped: RMSE 20, prediction 10 gives
    the interval [0, 50], of width 50, while twice the margin is 80. *)
Lemma interval_width_counterexample :
  let g := ready_example in
  (0 <= interval_rmse g)%Q /\
  let '(lower, upper) := calculate_confidence_interval g 10 (95 # 100) in
  ~ (upper - lower == 2 * interval_margin g (95 # 100))%Q.
Proof.
  cbv zeta. split; [discriminate|].
  vm_compute. discriminate.
Qed.

(** C4, amended. The width is not twice the margin in general. While
    prediction - margin is positive the two ends are prediction - margin
    and prediction + margin as computed; as soon as prediction - margin is
    zero or negative the lower end is clamped to 0, the width is the upper
    end itself, prediction + margin, and it is at most twice the margin. *)
Theorem interval_ends_and_clamped_width (g : globals) (prediction confidence : Q) :
  let margin := interval_margin g confidence in
  let '(lower, upper) := calculate_confidence_interval g prediction confidence in
  ((0 < prediction - margin)%Q ->
     lower = (prediction - margin)%Q /\ upper = (prediction + margin)%Q) /\
  ((prediction - margin <= 0)%Q ->
     lower = 0%Q /\ upper = (prediction + margin)%Q /\
     (upper - lower == upper)%Q /\ (upper - lower <= 2 * margin)%Q).
Proof.
  cbv zeta. unfold calculate_confidence_interval.
  set (margin := interval_margin g confidence).
  destruct (py_max_cases 0 (prediction - margin)) as [[Hlt ->] | [Hle ->]].
  - split; intros H; [split; reflexivity | exfalso; lra].
  - split; intros H; [exfalso; lra|].
    repeat split; try reflexivity; lra.
Qed.

Lemma interval_ends_and_clamped_width_witness :
  (10 - interval_margin ready_example (95 # 100) <= 0)%Q /\
  calculate_confidence_interval ready_example 10 (95 # 100) = (0%Q, 50%Q) /\
  (snd (calculate_confidence_interval ready_example 10 (95 # 100))
   - fst (calculate_confidence_interval ready_example 10 (95 # 100))
   <= 2 * interval_margin ready_example (95 # 100))%Q.
Proof.
  assert (Hm : (10 - interval_margin ready_example (95 # 100) <= 0)%Q)
    by (vm_compute; discriminate).
  split; [exact Hm|]. split; [reflexivity|].
  pose proof (interval_ends_and_clamped_width ready_example 10 (95 # 100)) as H.
  cbv zeta in H.
  destruct (calculate_confidence_interval ready_example 10 (95 # 100)) as [lo up].
  exact (proj2 (proj2 (proj2 (proj2 H Hm)))).
Defined.

(** ** The accuracy tracker *)

Ltac run_handler :=
  unfold try_except, bind, get, put, ret, raise, lift, getitem,
    set_prediction_errors, set_prediction_count, set_model, set_scaler,
    set_model_metadata; cbn.

(** What one accepted record_actual call does to the globals. *)
Lemma record_actual_accepted (predicted actual : Q) (g : globals) :
  let error := Qabs (predicted - actual) in
  let data := {| predicted_load := Some predicted; actual_load := Some actual |} in
  record_actual data g
  = (Ok (jsonify [ ("status", JStr "recorded"); ("error", JNum (py_round error 2)) ]),
     {| model := model g; scaler := scaler g; model_metadata := model_metadata g;
        prediction_count := prediction_count g;
        prediction_errors := last_n 1000 (prediction_errors g ++ [error]) |}).
Proof.
  cbv zeta. unfold record_actual. run_handler.
  case_bool_decide as Hlen; [reflexivity|].
  rewrite last_n_short by lia. reflexivity.
Qed.

Lemma record_actual_rejected (data : record_request) (g : globals) :
  predicted_load data = None \/ actual_load data = None ->
  record_actual data g
  = (Ok ([ ("error", JStr "Missing predicted_load or actual_load") ], 400), g).
Proof.
  destruct data as [[p|] [a|]]; cbn; intros [H | H]; try discriminate; reflexivity.
Qed.

(** C1, as stated: the call that records an error also increments the
    lifetime counter. It does not: in the freshly imported process,
    recording predicted 820 against actual 805 leaves the counter at 0. *)
Lemma record_actual_counter_counterexample :
  let data := {| predicted_load := Some 820%Q; actual_load := Some 805%Q |} in
  let g' := snd (record_actual data initial) in
  prediction_errors g' = [15%Q] /\
  prediction_count g' <> prediction_count initial + 1.
Proof. cbv zeta. split; [reflexivity | discriminate]. Qed.

(** C1, amended. A record_actual call carrying both loads answers
    "recorded", makes |predicted - actual| the newest entry of the error
    window, which is the old window followed by that entry and cut to its
    last 1000, and leaves the lifetime prediction counter (and the loaded
    artifacts) as they were. *)
Theorem record_actual_appends_error (predicted actual : Q) (g : globals) :
  let error := Qabs (predicted - actual) in
  let data := {| predicted_load := Some predicted; actual_load := Some actual |} in
  let '(resp, g') := record_actual data g in
  resp = Ok (jsonify [ ("status", JStr "recorded");
                       ("error", JNum (py_round error 2)) ]) /\
  prediction_errors g' = last_n 1000 (prediction_errors g ++ [error]) /\
  last (prediction_errors g') = Some error /\
  prediction_count g' = prediction_count g /\
  model g' = model g /\ scaler g' = scaler g /\
  model_metadata g' = model_metadata g.
Proof.
  cbv zeta. rewrite record_actual_accepted. cbn [prediction_errors prediction_count
    model scaler model_metadata].
  repeat split. apply last_last_n_snoc. lia.
Qed.

(** ** The predict handler, case by case *)

Section PredictCases.

Variable fromisoformat : string -> result datetime.

Lemma predict_not_loaded data now g :
  model g = None \/ scaler g = None ->
  predict fromisoformat data now g
  = (Ok ([ ("error", JStr "Model not loaded");
           ("message", JStr "Please run train_model.py first") ], 500), g).
Proof.
  unfold predict. run_handler.
  intros [H | H]; rewrite H; [|destruct (model g)]; reflexivity.
Qed.

Lemma predict_missing data now g m s field :
  model g = Some m -> scaler g = Some s ->
  List.find (fun field => negb (has_field data field)) required_fields = Some field ->
  predict fromisoformat data now g
  = (Ok ([ ("error", JStr ("Missing required field: " +:+ field)) ], 400), g).
Proof.
  intros Hm Hs Hf. unfold predict. run_handler. rewrite Hm, Hs.
  cbn in Hf. cbn. rewrite Hf. reflexivity.
Qed.

(** With every field present the handler runs the pipeline; the outcome
    is read off the three library calls. *)
Lemma predict_complete time load history now g m s :
  model g = Some m -> scaler g = Some s ->
  let data := {| current_time := Some time; current_load := Some load;
                 historical_loads := Some history |} in
  predict fromisoformat data now g
  = match extract_features fromisoformat time load history with
    | Raise e => (failed e, g)
    | Ok features =>
        match transform s features with
        | Raise e => (failed e, g)
        | Ok features_scaled =>
            match predict_method m features_scaled with
            | Raise e => (failed e, g)
            | Ok [] => (failed "index 0 is out of bounds", g)
            | Ok (predicted_load :: _) =>
                let '(lower, upper) :=
                  calculate_confidence_interval g predicted_load (95 # 100) in
                (Ok (jsonify
                   [ ("predicted_load", JNum (py_round predicted_load 2));
                     ("confidence_lower", JNum (py_round lower 2));
                     ("confidence_upper", JNum (py_round upper 2));
                     ("prediction_horizon", JStr "30_minutes");
                     ("model_accuracy",
                       JNum match model_metadata g with
                            | Some md => py_round (r2 (metrics md)) 4
                            | None => 89 # 100
                            end);
                     ("timestamp", JIso now) ]),
                 counted g)
            end
        end
    end.
Proof.
  intros Hm Hs. cbv zeta. unfold predict. run_handler. rewrite Hm, Hs. cbn.
  destruct (extract_features _ _ _ _) as [features|e]; [|reflexivity].
  destruct (transform s features) as [scaled|e]; [|reflexivity].
  destruct (predict_method m scaled) as [[|p ps]|e]; reflexivity.
Qed.

(** Whatever the request, predict touches nothing but the counter, which
    stays or goes up by one. *)
Lemma predict_frame data now g :
  let g' := snd (predict fromisoformat data now g) in
  (g' = g \/ g' = counted g).
Proof.
  cbv zeta.
  destruct (model g) as [m|] eqn:Hm;
    [|rewrite predict_not_loaded by auto; now left].
  destruct (scaler g) as [s|] eqn:Hs;
    [|rewrite predict_not_loaded by auto; now left].
  destruct (List.find (fun field => negb (has_field data field)) required_fields)
    as [field|] eqn:Hf.
  { erewrite predict_missing by eauto. now left. }
  destruct data as [[time|] [load|] [history|]]; try discriminate Hf.
  rewrite (predict_complete _ _ _ _ _ m s) by assumption.
  destruct (extract_features _ _ _ _) as [features|e]; [|now left].
  destruct (transform s features) as [scaled|e]; [|now left].
  destruct (predict_method m scaled) as [[|p ps]|e]; try (now left).
  destruct (calculate_confidence_interval _ _ _). now right.
Qed.

Lemma handle_errors req g :
  (length (prediction_errors g) <= 1000)%nat ->
  prediction_errors (snd (handle fromisoformat req g))
  = last_n 1000 (prediction_errors g ++ option_list (observed_error req)).
Proof.
  intros Hlen. destruct req as [now | now | data now | data]; cbn [handle observed_error].
  - cbn. rewrite app_nil_r. now rewrite last_n_short.
  - cbn. rewrite app_nil_r. now rewrite last_n_short.
  - cbn [option_list]. rewrite app_nil_r, last_n_short by assumption.
    destruct (predict_frame data now g) as [-> | ->]; reflexivity.
  - destruct data as [[p|] [a|]].
    + rewrite record_actual_accepted. reflexivity.
    + rewrite record_actual_rejected by auto. cbn. rewrite app_nil_r. now rewrite last_n_short.
    + rewrite record_actual_rejected by auto. cbn. rewrite app_nil_r. now rewrite last_n_short.
    + rewrite record_actual_rejected by auto. cbn. rewrite app_nil_r. now rewrite last_n_short.
Qed.

Lemma serve_errors reqs : forall g,
  (length (prediction_errors g) <= 1000)%nat ->
  prediction_errors (serve fromisoformat reqs g)
  = last_n 1000 (prediction_errors g ++ observed_errors reqs).
Proof.
  induction reqs as [|req reqs IH]; intros g Hlen.
  - cbn. rewrite app_nil_r. now rewrite last_n_short.
  - cbn [serve]. rewrite IH.
    + rewrite handle_errors by assumption. rewrite last_n_last_n_app.
      rewrite <- app_assoc. f_equal. f_equal.
      unfold observed_errors. simpl. destruct (observed_error req); reflexivity.
    + rewrite handle_errors by assumption. apply length_last_n.
Qed.

End PredictCases.

(** C5. The window never holds more than 1000 entries: after any
    sequence of requests it is the last 1000 of all errors recorded so
    far, oldest first, so that once 1001 errors were recorded only the
    1000 most recent remain; the avg_error of the metrics is the mean of
    the window (0 when it is empty), rounded to two decimals as every
    reported number is. *)
Theorem accuracy_window_bounded
    (fromisoformat : string -> result datetime)
    (reqs : list request) (g : globals) (now : datetime) :
  (length (prediction_errors g) <= 1000)%nat ->
  let g' := serve fromisoformat reqs g in
  let history := (prediction_errors g ++ observed_errors reqs)%list in
  let window := prediction_errors g' in
  (length window <= 1000)%nat /\
  window = last_n 1000 history /\
  (forall oldest recent,
     history = oldest :: recent -> length recent = 1000%nat -> window = recent) /\
  body_field "avg_error" (fst (get_metrics now g'))
  = Some (JNum (py_round
                  match window with
                  | [] => 0
                  | _ => Qsum window / inject_Z (Z.of_nat (length window))
                  end 2)).
Proof.
  intros Hlen. cbv zeta.
  pose proof (serve_errors fromisoformat reqs g Hlen) as Herr.
  set (g' := serve fromisoformat reqs g) in *.
  split; [rewrite Herr; apply length_last_n|]. split; [exact Herr|]. split.
  - intros oldest recent Hhist Hrecent. rewrite Herr, Hhist.
    now apply last_n_cons_full.
  - unfold get_metrics, bind, get, ret, jsonify, body_field. cbn.
    unfold avg_error_of, np_mean. destruct (prediction_errors g'); reflexivity.
Qed.

Lemma accuracy_window_bounded_witness :
  let reqs := [ RecordActual {| predicted_load := Some 820%Q; actual_load := Some 805%Q |};
                RecordActual {| predicted_load := Some 700%Q; actual_load := None |};
                RecordActual {| predicted_load := Some 640%Q; actual_load := Some 650%Q |} ] in
  let g' := serve fromisoformat_docstring reqs initial in
  (length (prediction_errors initial) <= 1000)%nat /\
  prediction_errors g' = [15%Q; 10%Q] /\
  (length (prediction_errors g') <= 1000)%nat.
Proof.
  cbv zeta.
  assert (H0 : (length (prediction_errors initial) <= 1000)%nat) by (cbn; lia).
  split; [exact H0|]. split; [reflexivity|].
  exact (proj1 (accuracy_window_bounded fromisoformat_docstring _ initial 0 H0)).
Defined.

(** ** Feature extraction *)

(** C6. For a timestamp that parses, extraction succeeds on every
    history, the empty one included, and load_24h_ago is the current load.
    With no history load_1h_ago and avg_load_last_7d are the current load
    too; otherwise they are the last element and the arithmetic mean of
    the history. *)
Theorem extract_features_history_fallback
    (fromisoformat : string -> result datetime)
    (time : string) (dt : datetime) (current_load : Q) (historical_loads : list Q) :
  fromisoformat (replace_Z time) = Ok dt ->
  exists load_1h_ago load_24h_ago avg_load_7d,
    extract_features fromisoformat time current_load historical_loads
    = Ok [[ inject_Z (hour dt); inject_Z (weekday dt); inject_Z (month dt);
            inject_Z (if 5 <=? weekday dt then 1 else 0);
            inject_Z (if (9 <=? hour dt) && (hour dt <? 17) then 1 else 0);
            load_1h_ago; load_24h_ago; avg_load_7d ]] /\
    load_24h_ago = current_load /\
    (historical_loads = [] ->
       load_1h_ago = current_load /\ avg_load_7d = current_load) /\
    (historical_loads <> [] ->
       last historical_loads = Some load_1h_ago /\
       avg_load_7d
       = (Qsum historical_loads / inject_Z (Z.of_nat (length historical_loads)))%Q).
Proof.
  intros Hparse. unfold extract_features. rewrite Hparse.
  destruct historical_loads as [|x rest].
  - exists current_load, current_load, current_load.
    repeat split; congruence.
  - destruct (last (x :: rest)) as [y|] eqn:Hlast.
    + exists y, current_load, (np_mean (x :: rest)).
      rewrite bool_decide_eq_true_2 by (cbn; lia).
      repeat split; try congruence; reflexivity.
    + apply last_None in Hlast. discriminate.
Qed.

Lemma extract_features_history_fallback_witness :
  fromisoformat_docstring (replace_Z "2024-01-07T14:30:00") = Ok dt_2024_01_07_14_30 /\
  extract_features fromisoformat_docstring "2024-01-07T14:30:00" 750 []
  = Ok [[14; 6; 1; 1; 1; 750; 750; 750]]%Q /\
  exists l1 l24 avg,
    extract_features fromisoformat_docstring "2024-01-07T14:30:00" 750 []
    = Ok [[14; 6; 1; 1; 1; l1; l24; avg]]%Q /\ l24 = 750%Q.
Proof.
  split; [reflexivity|]. split; [reflexivity|].
  destruct (extract_features_history_fallback fromisoformat_docstring
              "2024-01-07T14:30:00" dt_2024_01_07_14_30 750 [] eq_refl)
    as (l1 & l24 & avg & Heq & H24 & _).
  exists l1, l24, avg. split; [exact Heq | exact H24].
Defined.

(** ** Request validation and failures of predict *)

(** C8, as stated: every request lacking a required field is answered
    400. It is not while the artifacts are missing: the freshly imported
    process answers 500 "Model not loaded" to a request without
    current_load, since that guard comes before validation. *)
Lemma predict_missing_field_counterexample :
  let data := {| current_time := Some "2024-01-07T14:30:00";
                 current_load := None;
                 historical_loads := Some [650; 700; 720; 745]%Q |} in
  has_field data "current_load" = false /\
  predict fromisoformat_docstring data 0 initial
  = (Ok ([ ("error", JStr "Model not loaded");
           ("message", JStr "Please run train_model.py first") ], 500), initial) /\
  status_code (fst (predict fromisoformat_docstring data 0 initial)) <> Some 400.
Proof. cbv zeta. split; [reflexivity|]. split; [reflexivity | discriminate]. Qed.

(** C8, amended. Once the model and the scaler are loaded, a request
    lacking a required field is answered 400 with the message "Missing
    required field: " followed by the first absent field in the order
    current_time, current_load, historical_loads (the absent field itself
    when it is the only one); the globals, the counter among them, are
    untouched and the body carries no prediction. *)
Theorem predict_missing_field_rejected
    (fromisoformat : string -> result datetime)
    (data : predict_request) (now : datetime) (g : globals) (field : string) :
  is_Some (model g) -> is_Some (scaler g) ->
  In field required_fields -> has_field data field = false ->
  exists named,
    List.find (fun f => negb (has_field data f)) required_fields = Some named /\
    In named required_fields /\ has_field data named = false /\
    ((forall other, has_field data other = false -> other = field) -> named = field) /\
    predict fromisoformat data now g
    = (Ok ([ ("error", JStr ("Missing required field: " +:+ named)) ], 400), g) /\
    body_field "predicted_load" (fst (predict fromisoformat data now g)) = None.
Proof.
  intros [m Hm] [s Hs] Hin Hmiss.
  destruct (List.find (fun f => negb (has_field data f)) required_fields)
    as [named|] eqn:Hfind.
  - apply List.find_some in Hfind as Hnamed. destruct Hnamed as [Hin' Hneg].
    apply negb_true_iff in Hneg.
    exists named. rewrite (predict_missing fromisoformat data now g m s named) by assumption.
    repeat split; auto.
  - exfalso. pose proof (List.find_none _ _ Hfind field Hin) as Hnone.
    cbn in Hnone. rewrite Hmiss in Hnone. discriminate.
Qed.

Lemma predict_missing_field_rejected_witness :
  let data := {| current_time := Some "2024-01-07T14:30:00";
                 current_load := None;
                 historical_loads := Some [650; 700; 720; 745]%Q |} in
  is_Some (model ready_example) /\ is_Some (scaler ready_example) /\
  In "current_load" required_fields /\ has_field data "current_load" = false /\
  predict fromisoformat_docstring data 0 ready_example
  = (Ok ([ ("error", JStr "Missing required field: current_load") ], 400),
     ready_example) /\
  exists named,
    predict fromisoformat_docstring data 0 ready_example
    = (Ok ([ ("error", JStr ("Missing required field: " +:+ named)) ], 400),
       ready_example).
Proof.
  cbv zeta.
  assert (H1 : is_Some (model ready_example)) by (eexists; reflexivity).
  assert (H2 : is_Some (scaler ready_example)) by (eexists; reflexivity).
  assert (H3 : In "current_load" required_fields) by (cbn; tauto).
  repeat (split; [first [assumption | reflexivity]|]).
  destruct (predict_missing_field_rejected fromisoformat_docstring
              {| current_time := Some "2024-01-07T14:30:00";
                 current_load := None;
                 historical_loads := Some [650; 700; 720; 745]%Q |}
              0 ready_example "current_load" H1 H2 H3 eq_refl)
    as (named & _ & _ & _ & _ & Heq & _).
  exists named. exact Heq.
Defined.

(** C10. When feature extraction, scaling or inference raises, predict
    answers 500 "Prediction failed" with the exception's message and hands
    the globals back as they were, counter included; and whenever a call
    does change the counter, the three steps had succeeded and the counter
    went up by exactly one. *)
Theorem predict_counts_only_successes
    (fromisoformat : string -> result datetime) (now : datetime) (g : globals) :
  (forall time load history m s e,
     model g = Some m -> scaler g = Some s ->
     extract_features fromisoformat time load history = Raise e \/
     (exists features,
        extract_features fromisoformat time load history = Ok features /\
        transform s features = Raise e) \/
     (exists features scaled,
        extract_features fromisoformat time load history = Ok features /\
        transform s features = Ok scaled /\
        predict_method m scaled = Raise e) ->
     let data := {| current_time := Some time; current_load := Some load;
                    historical_loads := Some history |} in
     predict fromisoformat data now g = (failed e, g) /\
     status_code (fst (predict fromisoformat data now g)) = Some 500 /\
     prediction_count (snd (predict fromisoformat data now g)) = prediction_count g) /\
  (forall data,
     prediction_count (snd (predict fromisoformat data now g)) <> prediction_count g ->
     exists m s time load history features scaled predicted rest,
       model g = Some m /\ scaler g = Some s /\
       data = {| current_time := Some time; current_load := Some load;
                 historical_loads := Some history |} /\
       extract_features fromisoformat time load history = Ok features /\
       transform s features = Ok scaled /\
       predict_method m scaled = Ok (predicted :: rest) /\
       status_code (fst (predict fromisoformat data now g)) = Some 200 /\
       prediction_count (snd (predict fromisoformat data now g))
       = prediction_count g + 1).
Proof.
  split.
  - intros time load history m s e Hm Hs Hfail. cbv zeta.
    assert (Heq : predict fromisoformat
                    {| current_time := Some time; current_load := Some load;
                       historical_loads := Some history |} now g = (failed e, g)).
    { rewrite (predict_complete fromisoformat time load history now g m s) by assumption.
      destruct Hfail as [He | [(f & He & Ht) | (f & fs & He & Ht & Hp)]].
      - now rewrite He.
      - now rewrite He, Ht.
      - now rewrite He, Ht, Hp. }
    rewrite Heq. repeat split.
  - intros data Hchanged.
    destruct (model g) as [m|] eqn:Hm;
      [|rewrite predict_not_loaded in Hchanged by auto; now contradict Hchanged].
    destruct (scaler g) as [s|] eqn:Hs;
      [|rewrite predict_not_loaded in Hchanged by auto; now contradict Hchanged].
    destruct (List.find (fun field => negb (has_field data field)) required_fields)
      as [field|] eqn:Hf.
    { erewrite predict_missing in Hchanged by eauto. now contradict Hchanged. }
    destruct data as [[time|] [load|] [history|]]; try discriminate Hf.
    rewrite (predict_complete fromisoformat time load history now g m s) in * by assumption.
    destruct (extract_features _ _ _ _) as [features|e] eqn:He;
      [|now contradict Hchanged].
    destruct (transform s features) as [scaled|e] eqn:Ht; [|now contradict Hchanged].
    destruct (predict_method m scaled) as [[|p ps]|e] eqn:Hp;
      try (now contradict Hchanged).
    exists m, s, time, load, history, features, scaled, p, ps.
    destruct (calculate_confidence_interval g p (95 # 100)).
    repeat split; try assumption; try reflexivity.
Qed.

Lemma predict_counts_only_successes_witness :
  let data := {| current_time := Some "yesterday"; current_load := Some 750%Q;
                 historical_loads := Some [] |} in
  extract_features fromisoformat_docstring "yesterday" 750 []
  = Raise "Invalid isoformat string: 'yesterday'" /\
  predict fromisoformat_docstring data 0 ready_example
  = (failed "Invalid isoformat string: 'yesterday'", ready_example).
Proof.
  cbv zeta. split; [reflexivity|].
  exact (proj1 (proj1 (predict_counts_only_successes fromisoformat_docstring 0 ready_example)
                  "yesterday" 750%Q [] (stub_regressor 820) identity_scaler
                  "Invalid isoformat string: 'yesterday'" eq_refl eq_refl
                  (or_introl eq_refl))).
Defined.

(** ** Start-up and health *)

(** The status reported by health_check follows the model alone. *)
Lemma health_status_follows_model (now : datetime) (g : globals) :
  health_check now g
  = (Ok (jsonify
      [ ("status", JStr (if bool_decide (is_Some (model g))
                         then "healthy" else "unhealthy"));
        ("model_loaded", JBool (bool_decide (is_Some (model g))));
        ("scaler_loaded", JBool (bool_decide (is_Some (scaler g))));
        ("timestamp", JIso now) ]), g).
Proof. reflexivity. Qed.

(** C9, on the code: a start-up that finds model.pkl but no scaler.pkl
    fails ([load_model] returns [False]) with the model already assigned.
    In the globals it leaves, health_check answers "healthy" next to
    scaler_loaded = false, while predict, whose guard tests both
    artifacts, refuses every request with 500 "Model not loaded". *)
Theorem health_after_scaler_missing
    (m : regressor) (md : option (result metadata)) (now : datetime) :
  let files := {| model_pkl := Some (Ok m); scaler_pkl := None;
                  model_metadata_json := md |} in
  let '(loaded, g) := load_model files initial in
  loaded = Ok false /\
  model g = Some m /\ scaler g = None /\
  body_field "status" (fst (health_check now g)) = Some (JStr "healthy") /\
  body_field "scaler_loaded" (fst (health_check now g)) = Some (JBool false) /\
  forall fromisoformat data now',
    status_code (fst (predict fromisoformat data now' g)) = Some 500.
Proof.
  cbv zeta. unfold load_model. run_handler.
  repeat split.
Qed.

End AppProps.

(** * The interval under rounding *)

Module AppBinary64Props.
Import PrimFloat AppBinary64.

Local Open Scope float_scope.

(** On doubles the width of an unclamped interval need not be twice the
    margin: RMSE 0.05 and prediction 0.3 give a lower end above 0 and a
    width of 0.20000000000000004 against a doubled margin of 0.2. *)
Lemma unclamped_width_is_inexact :
  let '(lower, upper) :=
    calculate_confidence_interval (Some d_0_05) d_0_3 d_0_95 in
  ltb 0 lower = true /\
  eqb (upper - lower) (2 * (2 * d_0_05)) = false /\
  ltb (2 * (2 * d_0_05)) (upper - lower) = true.
Proof. vm_compute. repeat split. Qed.

(** On doubles the width of a clamped interval can reach twice the
    margin: RMSE 20 and prediction 39.99999999999999 give the interval
    [0, 80]. *)
Lemma clamped_width_can_reach_twice_the_margin :
  let '(lower, upper) :=
    calculate_confidence_interval (Some 20) d_39_99999999999999 d_0_95 in
  eqb lower 0 = true /\
  ltb d_39_99999999999999 (2 * 20) = true /\
  eqb (upper - lower) (2 * (2 * 20)) = true.
Proof. vm_compute. repeat split. Qed.

End AppBinary64Props.

(** * Properties of the workload generator *)

Module GenerateDataProps.
Import Num GenerateData NumFacts.

Local Open Scope string_scope.
Local Open Scope Z_scope.

(** ** The pandas columns, entry by entry *)

Lemma length_shift k (s : series) : length (shift k s) = length s.
Proof.
  unfold shift. rewrite length_take, length_app, length_replicate. lia.
Qed.

Lemma lookup_shift_lt k (s : series) i :
  (i < k)%nat -> (i < length s)%nat -> shift k s !! i = Some None.
Proof.
  intros Hk Hs. unfold shift. rewrite lookup_take_lt by assumption.
  rewrite lookup_app_l by (rewrite length_replicate; lia).
  now apply lookup_replicate_2.
Qed.

Lemma lookup_shift_ge k (s : series) i :
  (k <= i)%nat -> (i < length s)%nat -> shift k s !! i = s !! (i - k)%nat.
Proof.
  intros Hk Hs. unfold shift. rewrite lookup_take_lt by assumption.
  rewrite lookup_app_r by (rewrite length_replicate; lia).
  now rewrite length_replicate.
Qed.

Lemma omap_id_Some (l : list Q) : omap id (Some <$> l) = l.
Proof. induction l as [|x l IH]; [reflexivity|]. cbn. now rewrite IH. Qed.

Lemma length_rolling_mean w m (s : series) : length (rolling_mean w m s) = length s.
Proof. unfold rolling_mean. now rewrite length_map, length_seq. Qed.

Lemma lookup_rolling_mean w m (s : series) i :
  (i < length s)%nat ->
  rolling_mean w m s !! i
  = Some (let valid := omap id (drop (S i - w) (take (S i) s)) in
          if bool_decide (m <= length valid)%nat
          then Some (np_mean valid) else None).
Proof.
  intros Hi. unfold rolling_mean.
  change (map ?f ?l) with (f <$> l).
  rewrite list_lookup_fmap, lookup_seq_lt by assumption. reflexivity.
Qed.

Section Columns.

(** The loads of the frame, oldest first. *)
Variable loads : list Q.

Lemma shift_1_previous i :
  (i < length loads)%nat ->
  shift 1 (Some <$> loads) !! i = Some (last (take i loads)).
Proof.
  intros Hi. destruct i as [|i].
  - rewrite lookup_shift_lt by (rewrite ?length_fmap; lia). reflexivity.
  - rewrite lookup_shift_ge by (rewrite ?length_fmap; lia).
    rewrite list_lookup_fmap, last_lookup, length_take_le by lia.
    rewrite lookup_take_lt by lia.
    replace (S i - 1)%nat with i by lia. cbn [Init.Nat.pred].
    destruct (lookup_lt_is_Some_2 loads i ltac:(lia)) as [x ->]. reflexivity.
Qed.

Lemma shift_24_back i :
  (i < length loads)%nat ->
  shift 24 (Some <$> loads) !! i
  = Some (if decide (24 <= i)%nat then take i loads !! (i - 24)%nat else None).
Proof.
  intros Hi. case_decide as H24.
  - rewrite lookup_shift_ge by (rewrite ?length_fmap; lia).
    rewrite list_lookup_fmap, lookup_take_lt by lia.
    destruct (lookup_lt_is_Some_2 loads (i - 24) ltac:(lia)) as [x ->]. reflexivity.
  - rewrite lookup_shift_lt by (rewrite ?length_fmap; lia). reflexivity.
Qed.

Lemma trailing_window i :
  (i < length loads)%nat ->
  omap id (drop (S i - 24 * 7) (take (S i) (shift 1 (Some <$> loads))))
  = last_n 168 (take i loads).
Proof.
  intros Hi. unfold shift. rewrite length_fmap, take_take.
  replace (S i `min` length loads)%nat with (S i) by lia.
  cbn [replicate app take]. rewrite <- fmap_take.
  unfold last_n. rewrite length_take_le by lia.
  destruct (decide (i < 168)%nat) as [Hlt | Hge].
  - replace (S i - 24 * 7)%nat with 0%nat by lia.
    replace (i - 168)%nat with 0%nat by lia.
    rewrite !drop_0. cbn. apply omap_id_Some.
  - replace (S i - 24 * 7)%nat with (S (i - 168)) by lia.
    cbn [drop]. rewrite <- fmap_drop. apply omap_id_Some.
Qed.

Lemma rolling_7d_trailing i :
  (i < length loads)%nat ->
  rolling_mean (24 * 7) 1 (shift 1 (Some <$> loads)) !! i
  = Some match take i loads with
         | [] => None
         | _ => Some (np_mean (last_n 168 (take i loads)))
         end.
Proof.
  intros Hi.
  rewrite lookup_rolling_mean by (rewrite length_shift, length_fmap; lia).
  cbv zeta. rewrite trailing_window by assumption. f_equal.
  destruct i as [|i].
  - reflexivity.
  - destruct (take (S i) loads) as [|x rest] eqn:Htake.
    + apply (f_equal length) in Htake. rewrite length_take_le in Htake by lia.
      discriminate.
    + rewrite bool_decide_eq_true_2; [reflexivity|].
      unfold last_n. rewrite length_drop.
      assert (length (x :: rest) = S i)
        by (rewrite <- Htake; apply length_take_le; lia).
      lia.
Qed.

End Columns.

(** ** The lagged frame *)

Lemma length_add_lagged data : length (add_lagged data) = length data.
Proof.
  unfold add_lagged. rewrite length_zip_with, !length_zip_with.
  rewrite length_rolling_mean, !length_shift, !length_map. lia.
Qed.

(** The three columns, computed by shifting and rolling, are at every
    index the lags of what precedes that index. *)
Lemma add_lagged_from_past data : add_lagged data = lagged_frame data.
Proof.
  apply list_eq. intros i. unfold lagged_frame. rewrite list_lookup_imap.
  destruct (data !! i) as [s|] eqn:Hs.
  - assert (Hi : (i < length data)%nat) by (eapply lookup_lt_Some; eassumption).
    assert (Hl : (i < length (current_load <$> data))%nat)
      by now rewrite length_fmap.
    unfold add_lagged.
    replace (map (fun s => Some (current_load s)) data)
      with (Some <$> (current_load <$> data))
      by (rewrite <- list_fmap_compose; reflexivity).
    rewrite lookup_zip_with, (lookup_zip_with pair data), Hs.
    rewrite (shift_1_previous _ i Hl). cbn [mbind option_bind].
    rewrite (lookup_zip_with pair), (shift_24_back _ i Hl). cbn [mbind option_bind].
    rewrite (rolling_7d_trailing _ i Hl).
    cbn. unfold lagged_from_past.
    change (map current_load (take i data)) with (current_load <$> take i data).
    rewrite fmap_take.
    rewrite (length_take_le (current_load <$> data) i) by lia.
    reflexivity.
  - cbn. apply lookup_ge_None. rewrite length_add_lagged.
    now apply lookup_ge_None.
Qed.

Lemma has_nan_from_past s past :
  has_nan (lagged_from_past s past) = bool_decide (length past < 24)%nat.
Proof.
  unfold has_nan, lagged_from_past. cbn.
  destruct (decide (24 <= length past)%nat) as [H24 | H24].
  - rewrite (bool_decide_eq_false_2 (length past < 24)%nat) by lia.
    destruct (lookup_lt_is_Some_2 past (length past - 24) ltac:(lia)) as [x ->].
    destruct past as [|y rest]; [cbn in H24; lia|].
    destruct (last (y :: rest)) eqn:Hlast; [reflexivity|].
    apply last_None in Hlast. discriminate.
  - rewrite (bool_decide_eq_true_2 (length past < 24)%nat) by lia.
    now rewrite andb_false_r.
Qed.

Lemma filter_none {A} (f : A -> bool) l :
  (forall x, x ∈ l -> f x = false) -> List.filter f l = [].
Proof.
  induction l as [|x l IH]; intros H; [reflexivity|]. cbn.
  rewrite (H x) by apply list_elem_of_here.
  apply IH. intros y Hy. apply H. now apply list_elem_of_further.
Qed.

Lemma filter_all {A} (f : A -> bool) l :
  (forall x, x ∈ l -> f x = true) -> List.filter f l = l.
Proof.
  induction l as [|x l IH]; intros H; [reflexivity|]. cbn.
  rewrite (H x) by apply list_elem_of_here. f_equal.
  apply IH. intros y Hy. apply H. now apply list_elem_of_further.
Qed.

(** [dropna] removes the first 24 rows of the frame and nothing else. *)
Lemma dropna_lagged_frame data :
  dropna (lagged_frame data) = drop 24 (lagged_frame data).
Proof.
  unfold dropna.
  rewrite <- (take_drop 24 (lagged_frame data)) at 1.
  rewrite List.filter_app.
  rewrite filter_none, filter_all; [reflexivity| |].
  - intros x [j Hj]%list_elem_of_lookup. rewrite lookup_drop in Hj.
    unfold lagged_frame in Hj. apply list_lookup_imap_Some in Hj as (s & Hs & ->).
    rewrite has_nan_from_past, length_map.
    apply lookup_lt_Some in Hs.
    rewrite length_take_le by lia.
    rewrite bool_decide_eq_false_2 by lia. reflexivity.
  - intros x [j Hj]%list_elem_of_lookup.
    apply lookup_take_Some in Hj as [Hj Hlt].
    unfold lagged_frame in Hj. apply list_lookup_imap_Some in Hj as (s & Hs & ->).
    rewrite has_nan_from_past, length_map.
    apply lookup_lt_Some in Hs.
    rewrite length_take_le by lia.
    rewrite bool_decide_eq_true_2 by lia. reflexivity.
Qed.

(** ** The hourly loop *)

Lemma hourly_sample_timestamp start current r :
  timestamp (fst (hourly_sample start current r)) = current.
Proof.
  unfold hourly_sample.
  repeat match goal with
         | |- context [let '(_, _) := ?e in _] => destruct e
         end.
  reflexivity.
Qed.

Lemma length_hourly_loop n : forall start current r,
  length (fst (hourly_loop n start current r)) = n.
Proof.
  induction n as [|n IH]; intros start current r; [reflexivity|].
  cbn [hourly_loop]. destruct (hourly_sample start current r) as [s r1].
  specialize (IH start (current + DT.timedelta 0 1) r1).
  destruct (hourly_loop n start (current + DT.timedelta 0 1) r1) as [rest r2].
  cbn in *. now rewrite IH.
Qed.

(** Sample [i] of the loop is stamped [i] hours after the first. *)
Lemma hourly_loop_timestamp n : forall start current r i s,
  fst (hourly_loop n start current r) !! i = Some s ->
  timestamp s = current + Z.of_nat i * DT.us_per_hour.
Proof.
  induction n as [|n IH]; intros start current r i s; [discriminate|].
  cbn [hourly_loop].
  pose proof (hourly_sample_timestamp start current r) as Hts.
  destruct (hourly_sample start current r) as [s0 r1].
  specialize (IH start (current + DT.timedelta 0 1) r1).
  destruct (hourly_loop n start (current + DT.timedelta 0 1) r1) as [rest r2].
  cbn in *. destruct i as [|i]; cbn.
  - intros [= <-]. rewrite Hts. lia.
  - intros Hi. rewrite (IH i s Hi). unfold DT.timedelta. lia.
Qed.

(** ** One call of the generator *)

Lemma length_hourly_samples months now r :
  length (hourly_samples months now r) = Z.to_nat (24 * 30 * months).
Proof. unfold hourly_samples. apply length_hourly_loop. Qed.

(** For a positive number of months the call returns the lagged frame
    without its first 24 rows. *)
Lemma generate_training_data_frame months now r :
  1 <= months ->
  fst (generate_training_data months now r)
  = Ok (drop 24 (lagged_frame (hourly_samples months now r))).
Proof.
  intros Hmonths.
  pose proof (length_hourly_samples months now r) as Hlen.
  unfold generate_training_data, hourly_samples in *.
  destruct (hourly_loop _ _ _ _) as [data r'].
  cbn [fst] in *.
  destruct data as [|s rest]; [cbn in Hlen; lia|].
  cbn [fst]. now rewrite add_lagged_from_past, dropna_lagged_frame.
Qed.

(** The first row kept is the sample stamped 24 hours after the start. *)
Lemma generate_training_data_first_row months now r :
  1 <= months ->
  exists x rest,
    fst (generate_training_data months now r) = Ok (x :: rest) /\
    timestamp (base x) = start_date months now + 24 * DT.us_per_hour.
Proof.
  intros Hmonths. rewrite generate_training_data_frame by assumption.
  pose proof (length_hourly_samples months now r) as Hlen.
  destruct (lookup_lt_is_Some_2 (hourly_samples months now r) 24 ltac:(lia))
    as [s Hs].
  set (x := lagged_from_past s
              (map current_load (take 24 (hourly_samples months now r)))).
  assert (Hx : lagged_frame (hourly_samples months now r) !! 24%nat = Some x).
  { unfold lagged_frame. rewrite list_lookup_imap, Hs. reflexivity. }
  exists x, (drop 25 (lagged_frame (hourly_samples months now r))).
  split.
  - f_equal. now apply drop_S.
  - unfold hourly_samples in Hs. apply hourly_loop_timestamp in Hs.
    cbn [x lagged_from_past base]. rewrite Hs. lia.
Qed.

(** C7. The lagged columns of the training output use past values only:
    with past the loads of the samples that precede a row's own sample,
    load_1h_ago is the last of them, load_24h_ago the one 24 steps back
    and avg_load_last_7d the mean of the last 168 of them, or of all of
    them while fewer exist. The first 24 samples, for which one of these is
    undefined, are dropped from the output and no other sample is. *)
Theorem lagged_features_from_past_only
    (months : Z) (now : DT.datetime) (r : rngs) :
  1 <= months ->
  let data := hourly_samples months now r in
  exists rows,
    fst (generate_training_data months now r) = Ok rows /\
    rows = drop 24 (lagged_frame data) /\
    length rows = (length data - 24)%nat /\
    forall j x, rows !! j = Some x ->
      let past := map current_load (take (24 + j) data) in
      data !! (24 + j)%nat = Some (base x) /\
      load_1h_ago x = past !! (23 + j)%nat /\ is_Some (load_1h_ago x) /\
      load_24h_ago x = past !! j /\ is_Some (load_24h_ago x) /\
      avg_load_last_7d x = Some (np_mean (last_n 168 past)).
Proof.
  intros Hmonths data. exists (drop 24 (lagged_frame data)).
  split; [now apply generate_training_data_frame|]. split; [reflexivity|].
  split; [unfold lagged_frame; now rewrite length_drop, length_imap|].
  intros j x Hx past. rewrite lookup_drop in Hx.
  unfold lagged_frame in Hx. apply list_lookup_imap_Some in Hx as (s & Hs & ->).
  fold past.
  assert (Hlen : length past = (24 + j)%nat).
  { unfold past. rewrite length_map. apply length_take_le.
    apply lookup_lt_Some in Hs. lia. }
  assert (H1 : is_Some (past !! (23 + j)%nat)) by (apply lookup_lt_is_Some; lia).
  assert (H24 : is_Some (past !! j)) by (apply lookup_lt_is_Some; lia).
  unfold lagged_from_past. cbn [base load_1h_ago load_24h_ago avg_load_last_7d].
  rewrite last_lookup, Hlen.
  rewrite decide_True by lia.
  replace (24 + j - 24)%nat with j by lia.
  replace (Init.Nat.pred (24 + j)) with (23 + j)%nat by lia.
  repeat split; try assumption.
  destruct past; [discriminate Hlen | reflexivity].
Qed.

Lemma lagged_features_from_past_only_witness :
  1 <= 6 /\
  exists rows,
    fst (generate_training_data 6 DT.dt_2024_01_07_14_30
           (seeded half_stream half_stream 42)) = Ok rows /\
    length rows
    = (length (hourly_samples 6 DT.dt_2024_01_07_14_30
                 (seeded half_stream half_stream 42)) - 24)%nat.
Proof.
  assert (H : 1 <= 6) by lia.
  split; [exact H|].
  destruct (lagged_features_from_past_only 6 DT.dt_2024_01_07_14_30
              (seeded half_stream half_stream 42) H)
    as (rows & Hrows & _ & Hlen & _).
  exists rows. split; [exact Hrows | exact Hlen].
Defined.

(** ** Runs of the simulator *)

(** Row j of the output is stamped 24 + j hours after the start date. *)
Lemma kept_row_timestamp months now r j x :
  drop 24 (lagged_frame (hourly_samples months now r)) !! j = Some x ->
  timestamp (base x)
  = start_date months now + Z.of_nat (24 + j) * DT.us_per_hour.
Proof.
  rewrite lookup_drop. unfold lagged_frame. intros Hx.
  apply list_lookup_imap_Some in Hx as (s & Hs & ->).
  unfold lagged_from_past. cbn [base].
  unfold hourly_samples in Hs. now apply hourly_loop_timestamp in Hs.
Qed.

Section Runs.

Variables np_seed py_seed : Z -> stream.

(** C2, on the code. The seed and the parameters do not fix the series:
    the start date is read from the clock, so two runs with the same seed
    and the same months that start at different readings of the clock
    return series of the same length that differ, every row of the one
    being stamped later than the same row of the other by the difference
    of the two readings. *)
Theorem simulator_series_follows_clock
    (seed months : Z) (now1 now2 : DT.datetime) :
  1 <= months -> now1 <> now2 ->
  exists rows1 rows2,
    simulator np_seed py_seed seed months now1 = Ok rows1 /\
    simulator np_seed py_seed seed months now2 = Ok rows2 /\
    rows1 <> rows2 /\
    length rows1 = length rows2 /\
    Z.of_nat (length rows1) = 720 * months - 24 /\
    forall j x1 x2,
      rows1 !! j = Some x1 -> rows2 !! j = Some x2 ->
      timestamp (base x1) - timestamp (base x2) = now1 - now2 /\
      timestamp (base x1) <> timestamp (base x2).
Proof.
  intros Hmonths Hclock. unfold simulator.
  set (r := seeded np_seed py_seed seed).
  pose proof (length_hourly_samples months now1 r) as Hlen1.
  pose proof (length_hourly_samples months now2 r) as Hlen2.
  set (rows1 := drop 24 (lagged_frame (hourly_samples months now1 r))).
  set (rows2 := drop 24 (lagged_frame (hourly_samples months now2 r))).
  assert (Hl1 : Z.of_nat (length rows1) = 720 * months - 24)
    by (unfold rows1, lagged_frame; rewrite length_drop, length_imap, Hlen1; lia).
  assert (Hl2 : Z.of_nat (length rows2) = 720 * months - 24)
    by (unfold rows2, lagged_frame; rewrite length_drop, length_imap, Hlen2; lia).
  assert (Hrows : forall j x1 x2,
             rows1 !! j = Some x1 -> rows2 !! j = Some x2 ->
             timestamp (base x1) - timestamp (base x2) = now1 - now2).
  { intros j x1 x2 H1 H2.
    apply kept_row_timestamp in H1. apply kept_row_timestamp in H2.
    rewrite H1, H2. unfold start_date. lia. }
  exists rows1, rows2.
  split; [now apply generate_training_data_frame|].
  split; [now apply generate_training_data_frame|].
  split; [|split; [lia|split; [exact Hl1|]]].
  - intros Heq.
    destruct (lookup_lt_is_Some_2 rows1 0 ltac:(lia)) as [x Hx].
    pose proof Hx as Hx2. rewrite Heq in Hx2.
    pose proof (Hrows 0%nat x x Hx Hx2). lia.
  - intros j x1 x2 H1 H2. pose proof (Hrows j x1 x2 H1 H2). split; lia.
Qed.

End Runs.

Lemma simulator_series_follows_clock_witness :
  1 <= 6 /\
  DT.dt_2024_01_07_14_30 <> DT.dt_2024_01_07_14_30 + DT.us_per_hour /\
  script half_stream half_stream DT.dt_2024_01_07_14_30
  <> script half_stream half_stream (DT.dt_2024_01_07_14_30 + DT.us_per_hour).
Proof.
  assert (H : 1 <= 6) by lia.
  assert (Hclock : DT.dt_2024_01_07_14_30
                   <> DT.dt_2024_01_07_14_30 + DT.us_per_hour)
    by (unfold DT.us_per_hour; lia).
  split; [exact H|]. split; [exact Hclock|].
  destruct (simulator_series_follows_clock half_stream half_stream 42 6
              DT.dt_2024_01_07_14_30 (DT.dt_2024_01_07_14_30 + DT.us_per_hour)
              H Hclock) as (rows1 & rows2 & H1 & H2 & Hne & _).
  unfold script. rewrite H1, H2. intros [= Heq]. exact (Hne Heq).
Defined.

End GenerateDataProps.

(** * Further properties of the serving process *)

Module AppExtra.
Import Num DT App NumFacts AppProps.

Local Open Scope string_scope.
Local Open Scope Z_scope.

(** ** Start-up *)


(** ** Rounding *)

Lemma round_half_even_range x :
  Qfloor x <= round_half_even x <= Qfloor x + 1.
Proof.
  unfold round_half_even.
  destruct (x - inject_Z (Qfloor x) ?= 1 # 2)%Q; [destruct (Z.even _)| |]; lia.
Qed.

Lemma round_half_even_comp x y : (x == y)%Q -> round_half_even x = round_half_even y.
Proof.
  intros Hxy. unfold round_half_even.
  rewrite (Qfloor_comp _ _ Hxy).
  assert (Hc : ((x - inject_Z (Qfloor y) ?= 1 # 2) = (y - inject_Z (Qfloor y) ?= 1 # 2))%Q)
    by (apply Qcompare_comp; [now rewrite Hxy | reflexivity]).
  now rewrite Hc.
Qed.

Lemma round_half_even_mono x y : (x <= y)%Q -> round_half_even x <= round_half_even y.
Proof.
  intros Hxy.
  pose proof (Qfloor_resp_le _ _ Hxy) as Hf.
  pose proof (round_half_even_range x) as Hx.
  pose proof (round_half_even_range y) as Hy.
  destruct (Z.eq_dec (Qfloor x) (Qfloor y)) as [Heq | Hne]; [|lia].
  clear Hx Hy Hf. unfold round_half_even. rewrite Heq.
  destruct (Qcompare_spec (x - inject_Z (Qfloor y)) (1 # 2)) as [Hx | Hx | Hx];
    destruct (Qcompare_spec (y - inject_Z (Qfloor y)) (1 # 2)) as [Hy | Hy | Hy];
    try destruct (Z.even (Qfloor y)); try lia; exfalso; lra.
Qed.

Lemma scale_nonneg n : (0 <= inject_Z (10 ^ n))%Q.
Proof.
  change 0%Q with (inject_Z 0). rewrite <- Zle_Qle. apply Z.pow_nonneg. lia.
Qed.

Lemma py_round_comp x y n : (x == y)%Q -> py_round x n = py_round y n.
Proof.
  intros Hxy. unfold py_round.
  rewrite (round_half_even_comp (x * inject_Z (10 ^ n)) (y * inject_Z (10 ^ n)));
    [reflexivity | now rewrite Hxy].
Qed.

Lemma py_round_mono x y n : (x <= y)%Q -> (py_round x n <= py_round y n)%Q.
Proof.
  intros Hxy. unfold py_round. rewrite !Qred_correct.
  unfold Qle. cbn.
  apply Z.mul_le_mono_nonneg_r; [lia|].
  apply round_half_even_mono.
  apply Qmult_le_compat_r; [exact Hxy | apply scale_nonneg].
Qed.

(** ** The interval around a prediction *)

(** With a non-negative margin the interval is well ordered exactly when
    prediction + margin is not negative; it contains a non-negative
    prediction and leaves a negative one below its lower end, which is 0. *)
Theorem interval_position (g : globals) (prediction confidence : Q) :
  (0 <= interval_rmse g)%Q ->
  let '(lower, upper) := calculate_confidence_interval g prediction confidence in
  ((lower <= upper)%Q <-> (0 <= prediction + interval_margin g confidence)%Q) /\
  ((0 <= prediction)%Q -> (lower <= prediction)%Q /\ (prediction <= upper)%Q) /\
  ((prediction < 0)%Q -> lower = 0%Q /\ (prediction < lower)%Q).
Proof.
  intros Hrmse. unfold calculate_confidence_interval.
  assert (Hm : (0 <= interval_margin g confidence)%Q).
  { unfold interval_margin. destruct (Qle_bool _ _); lra. }
  set (margin := interval_margin g confidence) in *.
  destruct (py_max_cases 0 (prediction - margin)) as [[Hlt ->] | [Hle ->]].
  - repeat split; lra.
  - repeat split; lra.
Qed.

Lemma interval_position_witness :
  (0 <= interval_rmse ready_example)%Q /\
  (fst (calculate_confidence_interval ready_example 10 (95 # 100))
   <= snd (calculate_confidence_interval ready_example 10 (95 # 100)))%Q.
Proof.
  assert (H : (0 <= interval_rmse ready_example)%Q) by (vm_compute; discriminate).
  split; [exact H|].
  pose proof (interval_position ready_example 10 (95 # 100) H) as Hpos.
  destruct (calculate_confidence_interval ready_example 10 (95 # 100)) as [lo up] eqn:E.
  cbn [fst snd]. apply (proj2 (proj1 Hpos)).
  vm_compute. discriminate.
Defined.

(** ** Successful predictions *)

Section Pipeline.

Variable fromisoformat : string -> result datetime.

(** A complete request on which the three library calls succeed. *)
Variables (time : string) (load : Q) (history : list Q).
Variables (m : regressor) (s : scaler_t).
Variables (features scaled : list (list Q)) (p : Q) (rest : list Q).
Hypothesis Hextract : extract_features fromisoformat time load history = Ok features.
Hypothesis Htransform : transform s features = Ok scaled.
Hypothesis Hpredict : predict_method m scaled = Ok (p :: rest).

Let data : predict_request :=
  {| current_time := Some time; current_load := Some load;
     historical_loads := Some history |}.

Lemma predict_success now g :
  model g = Some m -> scaler g = Some s ->
  predict fromisoformat data now g
  = (Ok (jsonify
       [ ("predicted_load", JNum (py_round p 2));
         ("confidence_lower",
           JNum (py_round (fst (calculate_confidence_interval g p (95 # 100))) 2));
         ("confidence_upper",
           JNum (py_round (snd (calculate_confidence_interval g p (95 # 100))) 2));
         ("prediction_horizon", JStr "30_minutes");
         ("model_accuracy",
           JNum match model_metadata g with
                | Some md => py_round (r2 (metrics md)) 4
                | None => 89 # 100
                end);
         ("timestamp", JIso now) ]),
     counted g).
Proof.
  intros Hm Hs. unfold data.
  rewrite (predict_complete fromisoformat time load history now g m s Hm Hs).
  rewrite Hextract, Htransform, Hpredict.
  destruct (calculate_confidence_interval g p (95 # 100)). reflexivity.
Qed.

(** The numbers of a 200 answer are ordered: for a non-negative
    prediction and a non-negative RMSE the reported bounds, rounded as they
    are, enclose the reported prediction, and the lower one is not
    negative. *)
Theorem predict_response_encloses_prediction now g :
  model g = Some m -> scaler g = Some s ->
  (0 <= interval_rmse g)%Q -> (0 <= p)%Q ->
  let resp := fst (predict fromisoformat data now g) in
  exists lower predicted upper,
    status_code resp = Some 200 /\
    body_field "confidence_lower" resp = Some (JNum lower) /\
    body_field "predicted_load" resp = Some (JNum predicted) /\
    body_field "confidence_upper" resp = Some (JNum upper) /\
    (0 <= lower)%Q /\ (lower <= predicted)%Q /\ (predicted <= upper)%Q.
Proof.
  intros Hm Hs Hrmse Hp. cbv zeta. rewrite (predict_success now g Hm Hs).
  pose proof (interval_position g p (95 # 100) Hrmse) as Hpos.
  destruct (calculate_confidence_interval g p (95 # 100)) as [lo up] eqn:E.
  destruct Hpos as (_ & Hin & _). destruct (Hin Hp) as [Hlo Hup].
  eexists _, _, _. repeat split; cbn [fst snd].
  - apply py_round_nonneg.
    pose proof (py_max_lower_bound 0 (p - interval_margin g (95 # 100))) as H0.
    unfold calculate_confidence_interval in E. injection E as <- _. exact H0.
  - now apply py_round_mono.
  - now apply py_round_mono.
Qed.

End Pipeline.

Lemma predict_response_encloses_prediction_witness :
  exists lower predicted upper,
    body_field "confidence_lower"
      (fst (predict fromisoformat_docstring docstring_request 0 ready_example))
    = Some (JNum lower) /\
    body_field "predicted_load"
      (fst (predict fromisoformat_docstring docstring_request 0 ready_example))
    = Some (JNum predicted) /\
    body_field "confidence_upper"
      (fst (predict fromisoformat_docstring docstring_request 0 ready_example))
    = Some (JNum upper) /\
    (lower <= predicted)%Q /\ (predicted <= upper)%Q.
Proof.
  assert (Hrmse : (0 <= interval_rmse ready_example)%Q) by (vm_compute; discriminate).
  assert (Hp : (0 <= 820)%Q) by (vm_compute; discriminate).
  destruct (predict_response_encloses_prediction fromisoformat_docstring
              "2024-01-07T14:30:00" 750 [650; 700; 720; 745]%Q
              (stub_regressor 820) identity_scaler _ _ 820 []
              eq_refl eq_refl eq_refl 0 ready_example eq_refl eq_refl Hrmse Hp)
    as (lower & predicted & upper & _ & Hl & Hm & Hu & _ & Hle1 & Hle2).
  exists lower, predicted, upper. repeat split; assumption.
Defined.

(** ** Predicting without metadata *)

Section WithoutMetadata.

Variable fromisoformat : string -> result datetime.
Variables (time : string) (load : Q) (history : list Q).
Variables (m : regressor) (s : scaler_t).
Variables (features scaled : list (list Q)) (p : Q) (rest : list Q).
Hypothesis Hextract : extract_features fromisoformat time load history = Ok features.
Hypothesis Htransform : transform s features = Ok scaled.
Hypothesis Hpredict : predict_method m scaled = Ok (p :: rest).

Let data : predict_request :=
  {| current_time := Some time; current_load := Some load;
     historical_loads := Some history |}.

(** When model_metadata.json does not exist the start-up still succeeds,
    with an RMSE of 0: every prediction is then answered with
    confidence_upper equal to predicted_load (and confidence_lower too
    when the prediction is not negative) and a model_accuracy of 0. *)
Theorem predict_after_load_without_metadata_file (now : datetime) :
  let files := {| model_pkl := Some (Ok m); scaler_pkl := Some (Ok s);
                  model_metadata_json := None |} in
  let '(loaded, g) := load_model files initial in
  let resp := fst (predict fromisoformat data now g) in
  loaded = Ok true /\
  status_code resp = Some 200 /\
  body_field "predicted_load" resp = Some (JNum (py_round p 2)) /\
  body_field "confidence_upper" resp = Some (JNum (py_round p 2)) /\
  ((0 <= p)%Q -> body_field "confidence_lower" resp = Some (JNum (py_round p 2))) /\
  body_field "model_accuracy" resp = Some (JNum 0).
Proof.
  cbv zeta.
  set (g := {| model := Some m; scaler := Some s;
               model_metadata :=
                 Some {| timestamp := None;
                         metrics := {| rmse := 0; mae := 0; r2 := 0 |} |};
               prediction_count := 0; prediction_errors := [] |}).
  change (load_model _ initial) with (Ok true, g). lazy beta iota. unfold data.
  split; [reflexivity|].
  rewrite (predict_success fromisoformat time load history m s features scaled p rest
             Hextract Htransform Hpredict now g eq_refl eq_refl).
  repeat split.
  - cbn. do 2 f_equal. apply py_round_comp.
    change (interval_margin g (95 # 100)) with (2 * 0)%Q. lra.
  - intros Hp. cbn. do 2 f_equal. apply py_round_comp.
    change (interval_margin g (95 # 100)) with (2 * 0)%Q.
    destruct (py_max_cases 0 (p - 2 * 0)) as [[Hlt ->] | [Hle ->]]; lra.
Qed.

(** When model_metadata.json exists but cannot be read the start-up
    fails, yet the model and the scaler stay loaded: predictions are then
    served with the built-in RMSE of 50, that is a margin of 100, and the
    built-in accuracy of 0.89. *)
Theorem predict_after_unreadable_metadata (e : string) (now : datetime) :
  let files := {| model_pkl := Some (Ok m); scaler_pkl := Some (Ok s);
                  model_metadata_json := Some (Raise e) |} in
  let '(loaded, g) := load_model files initial in
  let resp := fst (predict fromisoformat data now g) in
  loaded = Ok false /\
  status_code resp = Some 200 /\
  body_field "confidence_upper" resp = Some (JNum (py_round (p + 100) 2)) /\
  body_field "confidence_lower" resp
  = Some (JNum (py_round (py_max 0 (p - 100)) 2)) /\
  body_field "model_accuracy" resp = Some (JNum (89 # 100)).
Proof.
  cbv zeta.
  set (g := {| model := Some m; scaler := Some s; model_metadata := None;
               prediction_count := 0; prediction_errors := [] |}).
  change (load_model _ initial) with (Ok false, g). lazy beta iota. unfold data.
  split; [reflexivity|].
  rewrite (predict_success fromisoformat time load history m s features scaled p rest
             Hextract Htransform Hpredict now g eq_refl eq_refl).
  repeat split.
Qed.

End WithoutMetadata.

Lemma predict_after_load_without_metadata_file_witness :
  let files := {| model_pkl := Some (Ok (stub_regressor 820));
                  scaler_pkl := Some (Ok identity_scaler);
                  model_metadata_json := None |} in
  let resp := fst (predict fromisoformat_docstring docstring_request 0
                     (snd (load_model files initial))) in
  body_field "predicted_load" resp = Some (JNum 820) /\
  body_field "confidence_upper" resp = Some (JNum (py_round 820 2)).
Proof.
  cbv zeta. split; [reflexivity|].
  pose proof (predict_after_load_without_metadata_file fromisoformat_docstring
                "2024-01-07T14:30:00" 750 [650; 700; 720; 745]%Q
                (stub_regressor 820) identity_scaler _ _ 820 []
                eq_refl eq_refl eq_refl 0) as H.
  cbv zeta in H.
  destruct (load_model _ initial) as [loaded g] eqn:E in H.
  injection E as _ <-.
  exact (proj1 (proj2 (proj2 (proj2 H)))).
Defined.

Lemma predict_after_unreadable_metadata_witness :
  let files := {| model_pkl := Some (Ok (stub_regressor 820));
                  scaler_pkl := Some (Ok identity_scaler);
                  model_metadata_json := Some (Raise "Expecting value") |} in
  let resp := fst (predict fromisoformat_docstring docstring_request 0
                     (snd (load_model files initial))) in
  body_field "confidence_lower" resp = Some (JNum 720) /\
  body_field "confidence_upper" resp = Some (JNum (py_round (820 + 100) 2)).
Proof.
  cbv zeta. split; [reflexivity|].
  pose proof (predict_after_unreadable_metadata fromisoformat_docstring
                "2024-01-07T14:30:00" 750 [650; 700; 720; 745]%Q
                (stub_regressor 820) identity_scaler _ _ 820 []
                eq_refl eq_refl eq_refl "Expecting value" 0) as H.
  cbv zeta in H.
  destruct (load_model _ initial) as [loaded g] eqn:E in H.
  injection E as _ <-.
  exact (proj1 (proj2 (proj2 H))).
Defined.

(** ** What serving requests leaves alone *)

Section Serving.

Variable fromisoformat : string -> result datetime.

Lemma handle_frame req g :
  let g' := snd (handle fromisoformat req g) in
  model g' = model g /\ scaler g' = scaler g /\
  model_metadata g' = model_metadata g /\
  prediction_count g <= prediction_count g'
  <= prediction_count g + (if is_predict req then 1 else 0).
Proof.
  cbv zeta. destruct req as [now | now | data now | data]; cbn [handle is_predict].
  - cbn. repeat split; lia.
  - cbn. repeat split; lia.
  - destruct (predict_frame fromisoformat data now g) as [-> | ->]; cbn;
      repeat split; lia.
  - destruct data as [[p|] [a|]];
      [rewrite record_actual_accepted | rewrite record_actual_rejected by auto ..];
      cbn; repeat split; lia.
Qed.

(** No request ever replaces the model, the scaler or the metadata; the
    lifetime counter never goes down, and it goes up by at most one per
    predict request, so health, metrics and record_actual requests (and
    evictions from the error window) leave it as it is. *)
Theorem serve_keeps_artifacts_and_counts_predictions
    (reqs : list request) (g : globals) :
  let g' := serve fromisoformat reqs g in
  model g' = model g /\ scaler g' = scaler g /\
  model_metadata g' = model_metadata g /\
  prediction_count g <= prediction_count g'
  <= prediction_count g + predict_requests reqs.
Proof.
  cbv zeta. revert g. induction reqs as [|req reqs IH]; intros g.
  - cbn. unfold predict_requests. cbn. repeat split; lia.
  - cbn [serve].
    destruct (IH (snd (handle fromisoformat req g))) as (Hm & Hs & Hmd & Hc).
    destruct (handle_frame req g) as (Hm' & Hs' & Hmd' & Hc').
    rewrite Hm, Hs, Hmd. repeat split; try assumption; try lia.
    unfold predict_requests in *. cbn [List.filter].
    destruct (is_predict req); cbn [length]; lia.
Qed.

(** ** Recorded errors are magnitudes *)

Lemma Qsum_nonneg l : Forall (fun e => (0 <= e)%Q) l -> (0 <= Qsum l)%Q.
Proof.
  induction 1 as [|x l Hx _ IH]; cbn; [apply Qle_refl|].
  change 0%Q with (0 + 0)%Q. now apply Qplus_le_compat.
Qed.

Lemma avg_error_of_nonneg l :
  Forall (fun e => (0 <= e)%Q) l -> (0 <= avg_error_of l)%Q.
Proof.
  intros Hl. destruct l as [|x l]; [apply Qle_refl|].
  unfold avg_error_of, np_mean.
  apply Qle_shift_div_l.
  - change 0%Q with (inject_Z 0). rewrite <- Zlt_Qlt. cbn [length]. lia.
  - rewrite Qmult_0_l. now apply Qsum_nonneg.
Qed.

Lemma handle_nonneg_errors req g :
  Forall (fun e => (0 <= e)%Q) (prediction_errors g) ->
  Forall (fun e => (0 <= e)%Q) (prediction_errors (snd (handle fromisoformat req g))).
Proof.
  intros Hg. destruct req as [now | now | data now | data]; cbn [handle].
  - exact Hg.
  - exact Hg.
  - destruct (predict_frame fromisoformat data now g) as [-> | ->]; exact Hg.
  - destruct data as [[p|] [a|]];
      [rewrite record_actual_accepted | rewrite record_actual_rejected by auto ..];
      cbn [snd prediction_errors]; try exact Hg.
    unfold last_n. apply Forall_drop. apply Forall_app. split; [exact Hg|].
    constructor; [apply Qabs_nonneg | constructor].
Qed.

(** Every entry of the error window is a non-negative number, whatever
    the requests, so the avg_error of the metrics is never negative. *)
Theorem avg_error_never_negative
    (reqs : list request) (g : globals) (now : datetime) :
  Forall (fun e => (0 <= e)%Q) (prediction_errors g) ->
  let g' := serve fromisoformat reqs g in
  Forall (fun e => (0 <= e)%Q) (prediction_errors g') /\
  exists avg,
    body_field "avg_error" (fst (get_metrics now g')) = Some (JNum avg) /\
    (0 <= avg)%Q.
Proof.
  intros Hg. cbv zeta.
  assert (Hinv : Forall (fun e => (0 <= e)%Q)
                   (prediction_errors (serve fromisoformat reqs g))).
  { revert g Hg. induction reqs as [|req reqs IH]; intros g Hg; [exact Hg|].
    cbn [serve]. apply IH. now apply handle_nonneg_errors. }
  split; [exact Hinv|].
  eexists. split; [reflexivity|].
  apply py_round_nonneg. now apply avg_error_of_nonneg.
Qed.

End Serving.

Lemma avg_error_never_negative_witness :
  let reqs := [ RecordActual {| predicted_load := Some 640%Q; actual_load := Some 650%Q |};
                Metrics 0 ] in
  Forall (fun e => (0 <= e)%Q) (prediction_errors initial) /\
  Forall (fun e => (0 <= e)%Q)
    (prediction_errors (serve fromisoformat_docstring reqs initial)).
Proof.
  cbv zeta.
  assert (H : Forall (fun e => (0 <= e)%Q) (prediction_errors initial))
    by constructor.
  split; [exact H|].
  exact (proj1 (avg_error_never_negative fromisoformat_docstring _ initial 0 H)).
Defined.

(** ** Calendar fields *)

Lemma hour_range dt : 0 <= hour dt <= 23.
Proof. unfold hour. pose proof (Z.mod_pos_bound (dt / us_per_hour) 24). lia. Qed.

Lemma weekday_range dt : 0 <= weekday dt <= 6.
Proof. unfold weekday. pose proof (Z.mod_pos_bound (toordinal dt + 6) 7). lia. Qed.

Lemma month_of_day_range (n : Z) (leap : bool) :
  0 <= n < 365 ->
  let month := Z.shiftr (n + 50) 5 in
  let preceding :=
    days_before_month month + (if (2 <? month) && leap then 1 else 0) in
  1 <= (if n <? preceding then month - 1 else month) <= 12.
Proof.
  intros Hn. cbv zeta. rewrite Z.shiftr_div_pow2 by lia.
  change (2 ^ 5) with 32.
  assert (Hq : 1 <= (n + 50) / 32 <= 12).
  { split.
    - apply Z.div_le_lower_bound; lia.
    - apply Z.lt_succ_r. apply Z.div_lt_upper_bound; lia. }
  set (q := (n + 50) / 32) in *.
  destruct (n <? _) eqn:Hlt; [|lia].
  assert (q <> 1); [|lia].
  intros ->. cbn in Hlt. apply Z.ltb_lt in Hlt. lia.
Qed.

Lemma month_range dt : 1 <= month dt <= 12.
Proof.
  unfold month, ord2ymd. cbv zeta.
  destruct (_ || _); [lia|].
  match goal with
  | |- context [Z.shiftr (?n + 50) 5] =>
      assert (Hn : 0 <= n < 365) by (apply Z.mod_pos_bound; lia);
      generalize dependent n
  end.
  intros n Hn.
  match goal with
  | |- context [(2 <? _) && ?b] => generalize b
  end.
  intros leap. pose proof (month_of_day_range n leap Hn) as H. cbv zeta in H.
  destruct (n <? _); exact H.
Qed.

(** ** The feature vector *)

(** Extraction fails exactly when the timestamp does not parse, with the
    parser's message. Otherwise it returns one row of eight values in the
    training order, whose calendar part is in range: hour 0-23, weekday
    0-6, month 1-12, is_weekend 1 exactly on weekdays 5 and 6,
    is_business_hours 1 exactly for hours 9 to 16. *)
Theorem extract_features_shape_and_ranges
    (fromisoformat : string -> result datetime)
    (time : string) (load : Q) (history : list Q) :
  match extract_features fromisoformat time load history with
  | Raise e => fromisoformat (replace_Z time) = Raise e
  | Ok features =>
      exists dt h d mo we bh l1 l24 avg,
        fromisoformat (replace_Z time) = Ok dt /\
        features = [[ inject_Z h; inject_Z d; inject_Z mo; inject_Z we;
                      inject_Z bh; l1; l24; avg ]] /\
        h = hour dt /\ d = weekday dt /\ mo = month dt /\
        0 <= h <= 23 /\ 0 <= d <= 6 /\ 1 <= mo <= 12 /\
        (we = 1 /\ 5 <= d \/ we = 0 /\ d < 5) /\
        (bh = 1 /\ 9 <= h < 17 \/ bh = 0 /\ (h < 9 \/ 17 <= h))
  end.
Proof.
  unfold extract_features.
  destruct (fromisoformat (replace_Z time)) as [dt|e]; [|reflexivity].
  eexists dt, _, _, _, _, _, _, _, _.
  split; [reflexivity|]. split; [reflexivity|].
  split; [reflexivity|]. split; [reflexivity|]. split; [reflexivity|].
  pose proof (hour_range dt). pose proof (weekday_range dt).
  pose proof (month_range dt).
  repeat split; try lia.
  - destruct (5 <=? weekday dt) eqn:E; [left | right]; lia.
  - destruct (9 <=? hour dt) eqn:E1; destruct (hour dt <? 17) eqn:E2; cbn;
      [left | right | right | right]; lia.
Qed.

(** Loads that are not negative give load features that are not
    negative. *)
Theorem extract_features_loads_nonneg
    (fromisoformat : string -> result datetime)
    (time : string) (load : Q) (history : list Q) (features : list (list Q)) :
  (0 <= load)%Q -> Forall (fun x => (0 <= x)%Q) history ->
  extract_features fromisoformat time load history = Ok features ->
  exists calendar l1 l24 avg,
    features = [(calendar ++ [l1; l24; avg])%list] /\ length calendar = 5%nat /\
    (0 <= l1)%Q /\ (0 <= l24)%Q /\ (0 <= avg)%Q.
Proof.
  intros Hload Hhist. unfold extract_features.
  destruct (fromisoformat (replace_Z time)) as [dt|e]; [|discriminate].
  intros [= <-].
  eexists [_; _; _; _; _], _, _, _. split; [reflexivity|]. split; [reflexivity|].
  repeat split.
  - case_bool_decide; [|exact Hload].
    destruct (last history) as [x|] eqn:Hlast; [|exact Hload]. cbn.
    apply last_Some_elem_of in Hlast.
    rewrite Forall_forall in Hhist. now apply Hhist.
  - exact Hload.
  - destruct history as [|x rest]; [exact Hload|].
    now apply (avg_error_of_nonneg (x :: rest)).
Qed.

Lemma extract_features_loads_nonneg_witness :
  (0 <= 750)%Q /\ Forall (fun x => (0 <= x)%Q) [650; 700; 720; 745]%Q /\
  exists calendar l1 l24 avg,
    extract_features fromisoformat_docstring "2024-01-07T14:30:00" 750
      [650; 700; 720; 745]%Q
    = Ok [(calendar ++ [l1; l24; avg])%list] /\ (0 <= avg)%Q.
Proof.
  assert (H0 : (0 <= 750)%Q) by (vm_compute; discriminate).
  assert (H1 : Forall (fun x => (0 <= x)%Q) [650; 700; 720; 745]%Q)
    by (repeat constructor; vm_compute; discriminate).
  split; [exact H0|]. split; [exact H1|].
  destruct (extract_features_loads_nonneg fromisoformat_docstring
              "2024-01-07T14:30:00" 750 [650; 700; 720; 745]%Q _ H0 H1 eq_refl)
    as (calendar & l1 & l24 & avg & Heq & _ & _ & _ & Havg).
  exists calendar, l1, l24, avg. split; [now rewrite <- Heq | exact Havg].
Defined.

(** ** The UTC designator *)


End AppExtra.

(** * Further properties of the workload generator *)

Module GenerateDataExtra.
Import Num GenerateData NumFacts GenerateDataProps.

Local Open Scope string_scope.
Local Open Scope Z_scope.

(** ** The base load and the noise *)

(** One call of [generate_base_load] takes exactly one numpy draw and
    none of the random module. For a draw in [0, 1] the weekday base load
    lies in the range of its time bucket (night 50-100, morning 200-400,
    lunch hour 1100-1300, other business hours 500-1000, evening 150-350),
    the weekend one is three tenths of the weekday one, and every base
    load lies between 15 and 1300. *)
Theorem generate_base_load_ranges
    (hour day_of_week : Z) (is_weekend is_business_hours : bool) (r : rngs) :
  (0 <= np_random r 0%nat <= 1)%Q ->
  let weekday_base :=
    fst (generate_base_load hour day_of_week false is_business_hours r) in
  let '(base, r') :=
    generate_base_load hour day_of_week is_weekend is_business_hours r in
  r' = {| np_random := fun n => np_random r (S n); py_random := py_random r |} /\
  base = (if is_weekend then weekday_base * (3 # 10) else weekday_base)%Q /\
  (15 <= base <= 1300)%Q /\
  (hour < 6 \/ 22 <= hour -> (50 <= weekday_base <= 100)%Q) /\
  (6 <= hour < 9 -> (200 <= weekday_base <= 400)%Q) /\
  (9 <= hour < 22 -> is_business_hours = true -> hour = 12 ->
     (1100 <= weekday_base <= 1300)%Q) /\
  (9 <= hour < 22 -> is_business_hours = true -> hour <> 12 ->
     (500 <= weekday_base <= 1000)%Q) /\
  (9 <= hour < 22 -> is_business_hours = false ->
     (150 <= weekday_base <= 350)%Q).
Proof.
  intros Hu. cbv zeta. unfold generate_base_load, np_uniform.
  set (u := np_random r 0%nat) in *.
  destruct (hour <? 6) eqn:H6; destruct (22 <=? hour) eqn:H22;
    destruct (hour <? 9) eqn:H9; destruct is_business_hours;
    destruct (hour =? 12) eqn:H12; destruct is_weekend; cbn [orb fst snd];
    (split; [reflexivity|]); (split; [reflexivity|]);
    repeat split; intros; try lra; exfalso; lia.
Qed.

Lemma generate_base_load_ranges_witness :
  (0 <= np_random (seeded half_stream half_stream 42) 0%nat <= 1)%Q /\
  (15 <= fst (generate_base_load 12 0 false true
                (seeded half_stream half_stream 42)) <= 1300)%Q.
Proof.
  assert (H : (0 <= np_random (seeded half_stream half_stream 42) 0%nat <= 1)%Q)
    by (split; vm_compute; discriminate).
  split; [exact H|].
  pose proof (generate_base_load_ranges 12 0 false true _ H) as Hr.
  cbv zeta in Hr.
  destruct (generate_base_load 12 0 false true _) as [base r'].
  exact (proj1 (proj2 (proj2 Hr))).
Defined.

(** [add_noise] with 20 percent keeps a non-negative value within 20
    percent of itself when the draw is in [0, 1], and takes one numpy
    draw. *)
Theorem add_noise_within_20_percent (value : Q) (r : rngs) :
  (0 <= value)%Q -> (0 <= np_random r 0%nat <= 1)%Q ->
  let '(noisy, r') := add_noise value 20 r in
  ((8 # 10) * value <= noisy <= (12 # 10) * value)%Q /\
  r' = {| np_random := fun n => np_random r (S n); py_random := py_random r |}.
Proof.
  intros Hv Hu. unfold add_noise, np_uniform.
  set (u := np_random r 0%nat) in *.
  split; [|reflexivity].
  assert (Hn : (- (2 # 10) <= (- (20) + (20 - - (20)) * u) / 100 <= 2 # 10)%Q).
  { unfold Qdiv. change (/ 100)%Q with (1 # 100)%Q. lra. }
  set (noise := ((- (20) + (20 - - (20)) * u) / 100)%Q) in *.
  split; nra.
Qed.

Lemma add_noise_within_20_percent_witness :
  (0 <= 750)%Q /\
  (0 <= np_random (seeded half_stream half_stream 42) 0%nat <= 1)%Q /\
  ((8 # 10) * 750
   <= fst (add_noise 750 20 (seeded half_stream half_stream 42)))%Q.
Proof.
  assert (H0 : (0 <= 750)%Q) by (vm_compute; discriminate).
  assert (H : (0 <= np_random (seeded half_stream half_stream 42) 0%nat <= 1)%Q)
    by (split; vm_compute; discriminate).
  split; [exact H0|]. split; [exact H|].
  pose proof (add_noise_within_20_percent 750 _ H0 H) as Hr.
  destruct (add_noise 750 20 _) as [noisy r'].
  exact (proj1 (proj1 Hr)).
Defined.

(** ** Degenerate calls *)

(** With [months] zero or negative the loop body never runs, no random
    number is drawn, and the call fails with [KeyError: 'current_load']
    when it reaches the lagged columns of the empty frame. *)
Theorem generate_training_data_without_months
    (months : Z) (now : DT.datetime) (r : rngs) :
  months <= 0 ->
  generate_training_data months now r = (Raise "'current_load'", r).
Proof.
  intros Hmonths. unfold generate_training_data.
  replace (Z.to_nat (24 * 30 * months)) with 0%nat by lia.
  reflexivity.
Qed.

Lemma generate_training_data_without_months_witness :
  0 <= 0 /\
  generate_training_data 0 DT.dt_2024_01_07_14_30 (seeded half_stream half_stream 42)
  = (Raise "'current_load'", seeded half_stream half_stream 42).
Proof.
  assert (H : 0 <= 0) by lia.
  split; [exact H|].
  exact (generate_training_data_without_months 0 _ _ H).
Defined.

(** ** The rows of the output *)

(** What one iteration stores, apart from the load. *)
Lemma hourly_sample_calendar start current r :
  let s := fst (hourly_sample start current r) in
  timestamp s = current /\
  hour_of_day s = DT.hour current /\
  day_of_week s = DT.weekday current /\
  month s = DT.month current /\
  is_weekend s = (if 5 <=? DT.weekday current then 1 else 0) /\
  is_business_hours s
  = (if (9 <=? DT.hour current) && (DT.hour current <? 17) then 1 else 0) /\
  (0 <= current_load s)%Q.
Proof.
  cbv zeta. unfold hourly_sample.
  repeat match goal with
         | |- context [let '(_, _) := ?e in _] => destruct e
         end.
  cbn. repeat split. apply py_round_nonneg, py_max_lower_bound.
Qed.

Lemma hourly_loop_calendar n : forall start current r i s,
  fst (hourly_loop n start current r) !! i = Some s ->
  hour_of_day s = DT.hour (timestamp s) /\
  day_of_week s = DT.weekday (timestamp s) /\
  month s = DT.month (timestamp s) /\
  is_weekend s = (if 5 <=? day_of_week s then 1 else 0) /\
  is_business_hours s
  = (if (9 <=? hour_of_day s) && (hour_of_day s <? 17) then 1 else 0) /\
  (0 <= current_load s)%Q.
Proof.
  induction n as [|n IH]; intros start current r i s; [discriminate|].
  cbn [hourly_loop].
  pose proof (hourly_sample_calendar start current r) as Hs. cbv zeta in Hs.
  destruct (hourly_sample start current r) as [s0 r1].
  specialize (IH start (current + DT.timedelta 0 1) r1).
  destruct (hourly_loop n start (current + DT.timedelta 0 1) r1) as [rest r2].
  cbn in *. destruct i as [|i]; cbn.
  - intros [= <-]. destruct Hs as (-> & -> & -> & -> & -> & -> & Hload).
    repeat split. exact Hload.
  - apply IH.
Qed.

(** For a positive number of months the call returns 720 x months - 24
    rows, one per hour: row j is stamped 720 x months - 24 - j hours
    before [now], so the rows are in time order, an hour apart, and the
    last one is an hour before [now]. *)
Theorem generate_training_data_rows_hourly
    (months : Z) (now : DT.datetime) (r : rngs) :
  1 <= months ->
  exists rows,
    fst (generate_training_data months now r) = Ok rows /\
    Z.of_nat (length rows) = 720 * months - 24 /\
    forall j x, rows !! j = Some x ->
      timestamp (base x)
      = now - DT.timedelta 0 (720 * months - 24 - Z.of_nat j).
Proof.
  intros Hmonths.
  pose proof (length_hourly_samples months now r) as Hlen.
  exists (drop 24 (lagged_frame (hourly_samples months now r))).
  split; [now apply generate_training_data_frame|]. split.
  - unfold lagged_frame. rewrite length_drop, length_imap, Hlen. lia.
  - intros j x Hx. rewrite lookup_drop in Hx. unfold lagged_frame in Hx.
    apply list_lookup_imap_Some in Hx as (s & Hs & ->).
    unfold lagged_from_past. cbn [base].
    unfold hourly_samples in Hs. apply hourly_loop_timestamp in Hs.
    rewrite Hs. unfold start_date, DT.timedelta, DT.us_per_day, DT.us_per_hour. lia.
Qed.

Lemma generate_training_data_rows_hourly_witness :
  1 <= 6 /\
  exists rows,
    fst (generate_training_data 6 DT.dt_2024_01_07_14_30
           (seeded half_stream half_stream 42)) = Ok rows /\
    Z.of_nat (length rows) = 720 * 6 - 24.
Proof.
  assert (H : 1 <= 6) by lia.
  split; [exact H|].
  destruct (generate_training_data_rows_hourly 6 DT.dt_2024_01_07_14_30
              (seeded half_stream half_stream 42) H) as (rows & Hrows & Hlen & _).
  exists rows. split; [exact Hrows | exact Hlen].
Defined.

Lemma np_mean_nonneg l : Forall (fun e => (0 <= e)%Q) l -> (0 <= np_mean l)%Q.
Proof.
  intros Hl. destruct l as [|x l]; [vm_compute; discriminate|].
  exact (AppExtra.avg_error_of_nonneg (x :: l) Hl).
Qed.

Lemma past_loads_nonneg months now r i :
  Forall (fun e => (0 <= e)%Q)
    (map current_load (take i (hourly_samples months now r))).
Proof.
  change (map current_load ?l) with (current_load <$> l).
  apply Forall_fmap, Forall_take, Forall_lookup. intros k s Hs. cbn.
  unfold hourly_samples in Hs. apply hourly_loop_calendar in Hs. tauto.
Qed.

(** Every row of the output is complete and consistent: its calendar
    columns are those of its own timestamp, its two flags are 0 or 1 as its
    weekday and hour say, none of its lagged columns is NaN, and its load
    and its three lagged values are not negative. *)
Theorem generate_training_data_rows_well_formed
    (months : Z) (now : DT.datetime) (r : rngs) :
  1 <= months ->
  exists rows,
    fst (generate_training_data months now r) = Ok rows /\
    forall j x, rows !! j = Some x ->
      let s := base x in
      hour_of_day s = DT.hour (timestamp s) /\
      day_of_week s = DT.weekday (timestamp s) /\
      month s = DT.month (timestamp s) /\
      is_weekend s = (if 5 <=? day_of_week s then 1 else 0) /\
      is_business_hours s
      = (if (9 <=? hour_of_day s) && (hour_of_day s <? 17) then 1 else 0) /\
      (0 <= current_load s)%Q /\
      has_nan x = false /\
      exists l1 l24 avg,
        load_1h_ago x = Some l1 /\ load_24h_ago x = Some l24 /\
        avg_load_last_7d x = Some avg /\
        (0 <= l1)%Q /\ (0 <= l24)%Q /\ (0 <= avg)%Q.
Proof.
  intros Hmonths.
  exists (drop 24 (lagged_frame (hourly_samples months now r))).
  split; [now apply generate_training_data_frame|].
  intros j x Hx. rewrite lookup_drop in Hx. unfold lagged_frame in Hx.
  apply list_lookup_imap_Some in Hx as (s & Hs & ->).
  pose proof (past_loads_nonneg months now r (24 + j)) as Hpast.
  assert (Hlen : length (map current_load (take (24 + j) (hourly_samples months now r)))
                 = (24 + j)%nat).
  { rewrite length_map. apply length_take_le. apply lookup_lt_Some in Hs. lia. }
  set (past := map current_load (take (24 + j) (hourly_samples months now r))) in *.
  cbv zeta. cbn [lagged_from_past base].
  pose proof Hs as Hcal. unfold hourly_samples in Hcal.
  apply hourly_loop_calendar in Hcal.
  destruct Hcal as (H1 & H2 & H3 & H4 & H5 & H6).
  do 6 (split; [assumption|]).
  split; [rewrite has_nan_from_past; apply bool_decide_eq_false_2; lia|].
  destruct (lookup_lt_is_Some_2 past (23 + j) ltac:(lia)) as [l1 Hl1].
  destruct (lookup_lt_is_Some_2 past j ltac:(lia)) as [l24 Hl24].
  exists l1, l24, (np_mean (last_n 168 past)).
  unfold lagged_from_past. cbn [load_1h_ago load_24h_ago avg_load_last_7d].
  rewrite last_lookup, Hlen, decide_True by lia.
  replace (Init.Nat.pred (24 + j)) with (23 + j)%nat by lia.
  replace (24 + j - 24)%nat with j by lia.
  rewrite Forall_lookup in Hpast.
  repeat split; try assumption.
  - destruct past; [discriminate Hlen | reflexivity].
  - exact (Hpast _ _ Hl1).
  - exact (Hpast _ _ Hl24).
  - apply np_mean_nonneg. unfold last_n. apply Forall_drop.
    now apply Forall_lookup.
Qed.

Lemma generate_training_data_rows_well_formed_witness :
  1 <= 6 /\
  exists rows,
    fst (generate_training_data 6 DT.dt_2024_01_07_14_30
           (seeded half_stream half_stream 42)) = Ok rows /\
    forall j x, rows !! j = Some x -> has_nan x = false.
Proof.
  assert (H : 1 <= 6) by lia.
  split; [exact H|].
  destruct (generate_training_data_rows_well_formed 6 DT.dt_2024_01_07_14_30
              (seeded half_stream half_stream 42) H) as (rows & Hrows & Hall).
  exists rows. split; [exact Hrows|].
  intros j x Hx. exact (proj1 (proj2 (proj2 (proj2 (proj2 (proj2 (proj2 (Hall j x Hx)))))))).
Defined.

(** ** Training and serving compute the same calendar features *)



(** ** Consumption of the random streams *)

(** The generators after one iteration of the loop: two numpy draws are
    gone, and one draw of the random module, or two when it was below
    0.02 and the hour spiked. *)
Lemma hourly_sample_rngs start current r :
  snd (hourly_sample start current r)
  = {| np_random := fun k => np_random r (2 + k)%nat;
       py_random :=
         if Qlt_bool (py_random r 0%nat) (2 # 100)
         then fun k => py_random r (2 + k)%nat
         else fun k => py_random r (1 + k)%nat |}.
Proof.
  unfold hourly_sample, generate_base_load, add_noise, should_spike,
    py_uniform, py_unit, np_uniform.
  repeat match goal with
         | |- context [if ?c then _ else _] =>
             lazymatch c with
             | Qlt_bool _ _ => fail
             | _ => destruct c
             end
         end;
    cbn; destruct (Qlt_bool (py_random r 0%nat) (2 # 100)); reflexivity.
Qed.

Lemma spike_count_le py : forall hours, (spike_count py hours <= hours)%nat.
Proof.
  intros hours. revert py. induction hours as [|n IH]; intros py; cbn; [lia|].
  destruct (Qlt_bool (py 0%nat) (2 # 100)).
  - specialize (IH (fun k => py (S (S k)))). lia.
  - specialize (IH (fun k => py (S k))). lia.
Qed.

Lemma hourly_loop_draws n : forall start current r,
  let r' := snd (hourly_loop n start current r) in
  (forall k, np_random r' k = np_random r (2 * n + k)%nat) /\
  (forall k,
     py_random r' k
     = py_random r (n + spike_count (py_random r) n + k)%nat).
Proof.
  induction n as [|n IH]; intros start current r; cbv zeta.
  - split; intros k; reflexivity.
  - cbn [hourly_loop].
    pose proof (hourly_sample_rngs start current r) as Hs.
    destruct (hourly_sample start current r) as [s0 r1]. cbn [snd] in Hs.
    specialize (IH start (current + DT.timedelta 0 1) r1). cbv zeta in IH.
    destruct (hourly_loop n start (current + DT.timedelta 0 1) r1) as [rest r2].
    cbn [snd] in *. destruct IH as [Hnp Hpy]. subst r1.
    cbn [np_random py_random] in Hnp, Hpy. cbn [spike_count].
    destruct (Qlt_bool (py_random r 0%nat) (2 # 100)); split; intros k.
    + rewrite Hnp. f_equal; lia.
    + rewrite Hpy. f_equal; lia.
    + rewrite Hnp. f_equal; lia.
    + rewrite Hpy. f_equal; lia.
Qed.

(** A call for [months] months takes exactly two numpy draws per
    generated hour, and from the random module one draw per hour plus one
    more for every hour that spikes, an hour spiking exactly when its first
    draw is below 0.02; what follows in both streams is left for the next
    call. *)
Theorem generate_training_data_draws (months : Z) (now : DT.datetime) (r : rngs) :
  let hours := Z.to_nat (24 * 30 * months) in
  let spikes := spike_count (py_random r) hours in
  let r' := snd (generate_training_data months now r) in
  (spikes <= hours)%nat /\
  (forall k, np_random r' k = np_random r (2 * hours + k)%nat) /\
  (forall k, py_random r' k = py_random r (hours + spikes + k)%nat).
Proof.
  cbv zeta. split; [apply spike_count_le|].
  unfold generate_training_data.
  pose proof (hourly_loop_draws (Z.to_nat (24 * 30 * months))
                (start_date months now) (start_date months now) r) as H.
  cbv zeta in H.
  destruct (hourly_loop _ _ _ _) as [data r1]. cbn [snd] in H.
  destruct data; exact H.
Qed.

End GenerateDataExtra.

(** * Properties of the training matrix *)

Module TrainModelExtra.
Import Num GenerateData TrainModel.

Local Open Scope string_scope.
Local Open Scope Z_scope.

Lemma select_feature_cols x : select feature_cols x = Ok (feature_row x).
Proof. reflexivity. Qed.

Lemma select_rows_feature_cols df :
  select_rows feature_cols df = Ok (map feature_row df).
Proof.
  induction df as [|x df IH]; [reflexivity|].
  cbn [select_rows]. rewrite select_feature_cols, IH. reflexivity.
Qed.

Lemma kept_with_target (f : row -> option Q) df : forall x,
  (forall y, is_Some (f y)) ->
  List.filter (fun xt : row * option Q => bool_decide (is_Some (snd xt)))
    (zip (x :: df) (map f df ++ [None]))
  = zip (take (length df) (x :: df)) (map f df).
Proof.
  induction df as [|y df IH]; intros x Hf; [reflexivity|].
  cbn [map app zip_with List.filter snd length take].
  rewrite bool_decide_eq_true_2 by apply Hf.
  f_equal. now apply IH.
Qed.

(** [prepare_features] never fails. It drops the last row only, keeps
    the others in order, gives each the eight feature cells in training
    order, and pairs it with the load of the row that follows it. *)
Theorem prepare_features_targets_next_row (df : list row) :
  exists X y,
    prepare_features df = Ok (X, y, feature_cols) /\
    length X = (length df - 1)%nat /\ length y = (length df - 1)%nat /\
    forall i x next,
      df !! i = Some x -> df !! S i = Some next ->
      X !! i = Some (feature_row x) /\
      y !! i = Some (Some (current_load (base next))).
Proof.
  unfold prepare_features. destruct df as [|x0 df].
  - exists [], []. do 3 (split; [reflexivity|]). intros i x next Hx. discriminate.
  - unfold shift_back. cbn [map drop length]. rewrite drop_0.
    replace (1 `min` S (length (map (fun x => Some (current_load (base x))) df)))%nat
      with 1%nat by lia.
    cbn [replicate].
    rewrite (kept_with_target (fun x => Some (current_load (base x))) df x0)
      by (intros; eexists; reflexivity).
    rewrite select_rows_feature_cols.
    eexists _, _. split; [reflexivity|].
    change (map fst ?l) with (fst <$> l). change (map snd ?l) with (snd <$> l).
    rewrite fst_zip, snd_zip
      by (rewrite length_take, length_map; cbn [length]; lia).
    rewrite !length_map, length_take. cbn [length].
    split; [lia|]. split; [lia|].
    intros i x next Hx Hnext.
    assert (Hi : (i < length df)%nat).
    { apply lookup_lt_Some in Hnext. cbn [length] in Hnext. lia. }
    repeat change (map ?f ?l) with (f <$> l).
    rewrite !list_lookup_fmap, lookup_take_lt, Hx by assumption.
    change ((x0 :: df) !! S i) with (df !! i) in Hnext.
    rewrite Hnext. split; reflexivity.
Qed.

(** Generation followed by preparation gives 720 x months - 25 training
    examples. The features of example j are the calendar columns of sample
    24 + j and the lags of the loads before it; its target is the load of
    sample 25 + j, the hour that follows. *)
Theorem training_examples_predict_next_hour
    (months : Z) (now : DT.datetime) (r : rngs) :
  1 <= months ->
  let data := hourly_samples months now r in
  exists rows X y,
    fst (generate_training_data months now r) = Ok rows /\
    prepare_features rows = Ok (X, y, feature_cols) /\
    Z.of_nat (length X) = 720 * months - 25 /\
    length y = length X /\
    forall j fs, X !! j = Some fs ->
      exists s next,
        data !! (24 + j)%nat = Some s /\ data !! (25 + j)%nat = Some next /\
        fs = feature_row (lagged_from_past s (map current_load (take (24 + j) data))) /\
        y !! j = Some (Some (current_load next)) /\
        timestamp next = timestamp s + DT.us_per_hour.
Proof.
  intros Hmonths data.
  pose proof (GenerateDataProps.length_hourly_samples months now r) as Hlen. fold data in Hlen.
  set (rows := drop 24 (lagged_frame data)).
  assert (Hrows : length rows = (length data - 24)%nat)
    by (unfold rows, lagged_frame; now rewrite length_drop, length_imap).
  destruct (prepare_features_targets_next_row rows) as (X & y & Hprep & HX & Hy & Hall).
  exists rows, X, y.
  split; [now apply GenerateDataProps.generate_training_data_frame|].
  split; [exact Hprep|]. split; [lia|]. split; [lia|].
  intros j fs Hfs.
  assert (Hj : (j < length X)%nat) by (eapply lookup_lt_Some; eassumption).
  destruct (lookup_lt_is_Some_2 rows j ltac:(lia)) as [x Hx].
  destruct (lookup_lt_is_Some_2 rows (S j) ltac:(lia)) as [nx Hnx].
  destruct (Hall j x nx Hx Hnx) as [HXj Hyj].
  rewrite HXj in Hfs. injection Hfs as <-.
  unfold rows in Hx, Hnx. rewrite lookup_drop in Hx, Hnx.
  unfold lagged_frame in Hx, Hnx.
  apply list_lookup_imap_Some in Hx as (s & Hs & ->).
  apply list_lookup_imap_Some in Hnx as (next & Hnext & ->).
  replace (24 + S j)%nat with (25 + j)%nat in * by lia.
  exists s, next. split; [exact Hs|]. split; [exact Hnext|].
  split; [reflexivity|]. split; [exact Hyj|].
  unfold data, hourly_samples in Hs, Hnext.
  apply GenerateDataProps.hourly_loop_timestamp in Hs, Hnext.
  rewrite Hs, Hnext. unfold DT.us_per_hour. lia.
Qed.

Lemma training_examples_predict_next_hour_witness :
  1 <= 6 /\
  exists rows X y,
    fst (generate_training_data 6 DT.dt_2024_01_07_14_30
           (seeded half_stream half_stream 42)) = Ok rows /\
    prepare_features rows = Ok (X, y, feature_cols) /\
    Z.of_nat (length X) = 720 * 6 - 25.
Proof.
  assert (H : 1 <= 6) by lia.
  split; [exact H|].
  destruct (training_examples_predict_next_hour 6 DT.dt_2024_01_07_14_30
              (seeded half_stream half_stream 42) H)
    as (rows & X & y & Hrows & Hprep & Hlen & _).
  exists rows, X, y. repeat split; assumption.
Defined.

End TrainModelExtra.
